(** * PyHealthKit: the Apple HealthKit export pipeline of [src/parse_xml.py]

    A shallow embedding of [extract_record_types], [clean_record_types],
    [get_filtered_record_types], [parse_health_data] and
    [process_health_records], together with the fragment of pandas and
    ElementTree those functions call, and the properties of the
    specification stated over it.

    Modelling choices, all documented where they are made:
    - pandas is the pandas of the 1.x and 2.x releases: a column of strings
      has [object] dtype and NaN marks a missing value;
    - a [DataFrame] carries the default [RangeIndex] that
      [pd.DataFrame(record_list)] builds, so a row label is a row position;
    - a column is either an object column (strings and NaN) or a
      datetime column (timestamps and NaT);
    - the [DataFrame] bound to [records] is one mutable object shared by
      the callers: it lives in the [world] store, next to the log and the
      files;
    - [pd.to_datetime] is a parameter of the development: what it makes of
      an entry depends on the column the entry stands in;
    - Python's [re] and the permissions of the file system are parameters
      too, gathered in the class [Platform]. *)

From Stdlib Require Import String Ascii List ZArith Bool Lia.
From stdpp Require Import base option list strings gmap.
Import ListNotations.

(** ** Python strings *)

Module PyStr.

(** [s.startswith(pat)] *)
Fixpoint startswith (pat s : string) : bool :=
  match pat, s with
  | EmptyString, _ => true
  | String _ _, EmptyString => false
  | String a pat', String b s' => Ascii.eqb a b && startswith pat' s'
  end.

(** [pat in s]: what [re.search(pat, s)] answers for a pattern that holds
    no regular-expression metacharacter, as [HK<letters>TypeIdentifier]. *)
Fixpoint contains (pat s : string) : bool :=
  startswith pat s
  || match s with
     | EmptyString => false
     | String _ s' => contains pat s'
     end.

(** [s.replace(pat, repl)] for a non-empty [pat]: the occurrences are
    found from the left and do not overlap; [skip] counts the characters
    of the occurrence just matched that are still to be passed over. *)
Fixpoint replace_from (pat repl : string) (skip : nat) (s : string) : string :=
  match s with
  | EmptyString => EmptyString
  | String c s' =>
      match skip with
      | S k => replace_from pat repl k s'
      | O =>
          if startswith pat s
          then repl +:+ replace_from pat repl (String.length pat - 1) s'
          else String c (replace_from pat repl 0 s')
      end
  end.

(** [s.replace("", repl)] puts [repl] before every character and at the end. *)
Fixpoint intersperse (repl s : string) : string :=
  match s with
  | EmptyString => repl
  | String c s' => repl +:+ String c (intersperse repl s')
  end.

(** [s.replace(pat, repl)], the element-wise operation of
    [Series.str.replace(pat, repl)] for a literal pattern. *)
Definition replace (pat repl s : string) : string :=
  match pat with
  | EmptyString => intersperse repl s
  | String _ _ => replace_from pat repl 0 s
  end.

(** [sep.join(xs)] *)
Fixpoint join (sep : string) (xs : list string) : string :=
  match xs with
  | [] => EmptyString
  | [x] => x
  | x :: rest => x +:+ sep +:+ join sep rest
  end.

(** The newline character. *)
Definition nl : string := String (ascii_of_nat 10) EmptyString.

(** How an f-string renders a [str] or [None] argument. *)
Definition format (o : option string) : string :=
  match o with
  | Some s => s
  | None => "None"
  end.

(** The characters that have a meaning of their own in a regular
    expression of Python's [re]. *)
Definition metachar (c : ascii) : bool :=
  existsb (Ascii.eqb c)
    ["."%char; "^"%char; "$"%char; "*"%char; "+"%char; "?"%char; "{"%char;
     "}"%char; "["%char; "]"%char; "\"%char; "|"%char; "("%char; ")"%char].

(** The pattern holds no such character: as a regular expression it stands
    for itself. *)
Fixpoint is_literal (pat : string) : bool :=
  match pat with
  | EmptyString => true
  | String c pat' => negb (metachar c) && is_literal pat'
  end.

End PyStr.

(** ** What the model takes from the platform

    [re_search pat] is the search of [re.compile(pat)], as
    [Series.str.contains(pat)] uses it (its default is [regex=True]):
    [None] when [re.compile] raises [re.error], and otherwise the test
    [re.search(pat, s) is not None]. For a pattern with no metacharacter
    this test is [pat in s]; nothing is assumed on the other patterns.
    [writable path] tells whether a file can be created or replaced at
    [path] (the directory exists, the permissions allow it, the path is
    not empty). *)
Class Platform : Type := {
  re_search : string -> option (string -> bool);
  re_search_literal :
    forall pat, PyStr.is_literal pat = true -> re_search pat = Some (PyStr.contains pat);
  writable : string -> bool
}.

(** ** The pandas fragment *)

(** A [pandas.Timestamp]: nanoseconds since the epoch. *)
Definition Timestamp : Type := Z.

(** A column of a frame: [object] dtype holding [str] values and NaN
    ([None]), or [datetime64] dtype holding timestamps and NaT ([None]). *)
Inductive column : Type :=
| ObjCol (vals : list (option string))
| DtCol (vals : list (option Timestamp)).

(** [len(column)] *)
Definition col_length (c : column) : nat :=
  match c with
  | ObjCol vs => length vs
  | DtCol vs => length vs
  end.

(** A frame with the default [RangeIndex(nrows)]: the label of a row is its
    position. The columns are kept in their order, by name. *)
Record DataFrame : Type := mkFrame {
  nrows : nat;
  columns : list (string * column)
}.

(** A [Series]: the labels it kept from the frame, and its values. *)
Record Series : Type := mkSeries {
  s_index : list nat;
  s_values : column
}.

(** One field of a table row. *)
Inductive cell : Type :=
| NaN
| Str (s : string)
| Ts (t : Timestamp).

(** The entries of the two kinds of column as cells. *)
Definition str_cell (v : option string) : cell :=
  match v with Some s => Str s | None => NaN end.

Definition ts_cell (v : option Timestamp) : cell :=
  match v with Some t => Ts t | None => NaN end.

Definition col_cells (c : column) : list cell :=
  match c with
  | ObjCol vs => List.map str_cell vs
  | DtCol vs => List.map ts_cell vs
  end.

(** What [DataFrame.to_csv] writes, before quoting and rendering: the header
    line, whose first field (over the index) is empty, and one line per row,
    led by the row's index label. *)
Record csv : Type := mkCsv {
  csv_header : list string;
  csv_rows : list (nat * list cell)
}.

(** ** ElementTree *)

(** An element: tag, attribute dictionary (in document order), children. *)
#[warnings="-register-all"]
Inductive Element : Type :=
| Elem (tag : string) (attrib : list (string * string)) (children : list Element).

(** [e.tag] *)
Definition tag_of (e : Element) : string :=
  match e with Elem t _ _ => t end.

(** [e.attrib] *)
Definition attrib_of (e : Element) : list (string * string) :=
  match e with Elem _ a _ => a end.

(** [root.iter(tag)]: the element itself and its descendants, in document
    (pre-) order, restricted to the elements named [tag]. *)
Fixpoint iter (tag : string) (e : Element) : list Element :=
  match e with
  | Elem t a cs =>
      (if String.eqb t tag then [e] else [])
      ++ (fix iter_children (l : list Element) : list Element :=
            match l with
            | [] => []
            | c :: l' => iter tag c ++ iter_children l'
            end) cs
  end.

(** ** Exceptions, log, files, store *)

(** The exceptions the pipeline can raise. The specification's error names
    are: [InvalidArgument] for [ValueError_unknown_type]; [SchemaError] for
    [KeyError]; [ParseError] for [XMLParseError], [OSError] and
    [DateParseError]. *)
Inductive exn : Type :=
| ValueError_unknown_type
    (* raise ValueError('Unknown type of record. ...') *)
| ValueError_mask_na
    (* pandas: Cannot mask with non-boolean array containing NA / NaN values *)
| AttributeError_str
    (* pandas: Can only use .str accessor with string values *)
| re_error
    (* re.error: the pattern is not a regular expression *)
| TypeError_join
    (* str.join: sequence item: expected str instance, float found *)
| KeyError (labels : list string)
    (* pandas: column label(s) not found *)
| DateParseError (value : string)
    (* pd.to_datetime: the value is refused in its column *)
| XMLParseError
    (* ET.ParseError: the document is not well-formed *)
| OSError.
    (* the source cannot be opened, or the output cannot be *)

Inductive log_entry : Type :=
| Error_invalid_type (given : option string)
    (* logger.error("Invalid type_of_record provided: %s", type_of_record) *)
| Error_parse (e : exn)
    (* logger.error(f"Failed to parse XML data: {e}") *)
| Error_processing (e : exn)
    (* logger.error(f"An error occurred during processing: {e}") *)
| Info (msg : string).
    (* logger.info(msg) *)

Inductive file : Type :=
| XmlDoc (root : Element)
| NotXml
| CsvFile (content : csv).

(** The store: the frame object that [records] names, the log, the files. *)
Record world : Type := mkWorld {
  frame : DataFrame;
  log : list log_entry;
  files : gmap string file
}.

(** ** A state and exception monad *)

Definition M (A : Type) : Type := world -> (exn + A) * world.

Definition ret {A} (a : A) : M A := fun w => (inr a, w).

Definition raise {A} (e : exn) : M A := fun w => (inl e, w).

Definition bind {A B} (m : M A) (k : A -> M B) : M B :=
  fun w =>
    match m w with
    | (inr a, w') => k a w'
    | (inl e, w') => (inl e, w')
    end.

Declare Scope py_scope.
Delimit Scope py_scope with py.
Notation "x <- m ;; k" := (bind m (fun x => k))
  (at level 100, m at next level, right associativity) : py_scope.
Notation "m ;;; k" := (bind m (fun _ => k))
  (at level 100, right associativity) : py_scope.
Local Open Scope py_scope.

Definition get_frame : M DataFrame := fun w => (inr (frame w), w).

Definition put_frame (df : DataFrame) : M unit :=
  fun w => (inr tt, mkWorld df (log w) (files w)).

Definition emit (e : log_entry) : M unit :=
  fun w => (inr tt, mkWorld (frame w) (log w ++ [e]) (files w)).

(** [try: m  except Exception as e: logger.error(...); raise e] *)
Definition try_log {A} (m : M A) (entry : exn -> log_entry) : M A :=
  fun w =>
    match m w with
    | (inr a, w') => (inr a, w')
    | (inl e, w') => (inl e, mkWorld (frame w') (log w' ++ [entry e]) (files w'))
    end.

(** A step that only computes: it returns or raises, and leaves the store. *)
Definition lift {A} (r : exn + A) : M A := fun w => (r, w).

(** ** pandas operations on the shared frame *)

(** The column under a label. *)
Fixpoint lookup_col (name : string) (cols : list (string * column)) : option column :=
  match cols with
  | [] => None
  | (n, c) :: rest => if String.eqb n name then Some c else lookup_col name rest
  end.

(** [records[name]] *)
Definition getitem (name : string) : M column :=
  df <- get_frame;;
  match lookup_col name (columns df) with
  | Some c => ret c
  | None => raise (KeyError [name])
  end.

(** [col.str.contains(pat)]: a datetime column has no [.str]; the pattern
    is compiled as a regular expression, whatever the column holds; NaN
    stays NaN. *)
Definition str_contains `{PF : Platform} (pat : string) (c : column) : M (list (option bool)) :=
  match c with
  | ObjCol vs =>
      match re_search pat with
      | Some found => ret (List.map (option_map found) vs)
      | None => raise re_error
      end
  | DtCol _ => raise AttributeError_str
  end.

(** The mask holds a NaN. *)
Definition mask_has_na (mask : list (option bool)) : bool :=
  existsb (fun b => match b with None => true | Some _ => false end) mask.

(** Boolean indexing: the entries of [xs] at the positions where [mask] is [True]. *)
Fixpoint mask_select {A} (mask : list (option bool)) (xs : list A) : list A :=
  match mask, xs with
  | Some true :: mask', x :: xs' => x :: mask_select mask' xs'
  | _ :: mask', _ :: xs' => mask_select mask' xs'
  | _, _ => []
  end.

(** Boolean indexing of a column. *)
Definition col_select (mask : list (option bool)) (c : column) : column :=
  match c with
  | ObjCol vs => ObjCol (mask_select mask vs)
  | DtCol vs => DtCol (mask_select mask vs)
  end.

(** [records.loc[mask, name]]: the selected rows of one column, with their
    labels. A mask that holds NaN is refused. *)
Definition loc_rows (mask : list (option bool)) (name : string) : M Series :=
  col <- getitem name;;
  if mask_has_na mask then raise ValueError_mask_na
  else
    df <- get_frame;;
    ret (mkSeries (mask_select mask (seq 0 (nrows df))) (col_select mask col)).

(** [ser.str.replace(pat, repl)], for a pattern with no metacharacter (the
    two callers reach it with [HKQuantityTypeIdentifier] and
    [HKCategoryTypeIdentifier] only). *)
Definition str_replace (pat repl : string) (ser : Series) : M Series :=
  match s_values ser with
  | ObjCol vs =>
      ret (mkSeries (s_index ser)
             (ObjCol (List.map (option_map (PyStr.replace pat repl)) vs)))
  | DtCol _ => raise AttributeError_str
  end.

(** The value a series holds at label [i], NaN when it has no such label. *)
Fixpoint series_get {A} (i : nat) (idx : list nat) (vals : list (option A)) : option A :=
  match idx, vals with
  | j :: idx', v :: vals' => if Nat.eqb i j then v else series_get i idx' vals'
  | _, _ => None
  end.

(** [ser.reindex(RangeIndex(n))._values]: pandas aligns a series on the
    frame's index before it stores it; a label the series lacks gets NaN. *)
Definition reindex (n : nat) (ser : Series) : column :=
  match s_values ser with
  | ObjCol vs => ObjCol (List.map (fun i => series_get i (s_index ser) vs) (seq 0 n))
  | DtCol vs => DtCol (List.map (fun i => series_get i (s_index ser) vs) (seq 0 n))
  end.

(** Storing a column under a label: in place when the label exists, as a
    new last column otherwise. *)
Fixpoint set_col (name : string) (c : column) (cols : list (string * column))
  : list (string * column) :=
  match cols with
  | [] => [(name, c)]
  | (n, c0) :: rest =>
      if String.eqb n name then (n, c) :: rest else (n, c0) :: set_col name c rest
  end.

(** [records.loc[:, name] = ser]. The row selector is the whole index, and
    pandas aligns a [Series] on the axes of the frame when it is set through
    [.loc] ("pandas aligns all AXES when setting Series and DataFrame from
    .loc"): the column becomes [ser.reindex(records.index)], so a row whose
    label is not in [ser] receives NaN. *)
Definition setitem_all_rows (name : string) (ser : Series) : M unit :=
  df <- get_frame;;
  put_frame (mkFrame (nrows df) (set_col name (reindex (nrows df) ser) (columns df))).

(** The frame without the column(s) labelled [name]. *)
Definition without_column (name : string) (df : DataFrame) : DataFrame :=
  mkFrame (nrows df)
          (List.filter (fun nc => negb (String.eqb (fst nc) name)) (columns df)).

(** [records.drop(columns=name, inplace=True)] *)
Definition drop_column (name : string) : M unit :=
  df <- get_frame;;
  match lookup_col name (columns df) with
  | None => raise (KeyError [name])
  | Some _ => put_frame (without_column name df)
  end.

(** The rendering of a frame: labels, then one line per row. *)
Definition csv_of (df : DataFrame) : csv :=
  mkCsv (EmptyString :: List.map fst (columns df))
        (List.map (fun i => (i, List.map (fun nc => nth i (col_cells (snd nc)) NaN) (columns df)))
                  (seq 0 (nrows df))).

(** [records.to_csv(save_path)]: the file at [save_path] is created or
    replaced; when it cannot be opened for writing the call raises and the
    files are as they were. A failure in the middle of the writing (a full
    disk) is outside the model. *)
Definition to_csv `{PF : Platform} (save_path : string) : M unit :=
  fun w =>
    if writable save_path
    then (inr tt,
          mkWorld (frame w) (log w)
                  (<[save_path := CsvFile (csv_of (frame w))]> (files w)))
    else (inl OSError, w).

(** ** The functions of [parse_xml.py] that work on [records]

    The argument [records] is the frame of the store: Python passes the
    object itself, and [clean_record_types] hands the same object back. *)

(** [type_of_record in ["Quantity", "Category"]] *)
Definition valid_type (type_of_record : option string) : bool :=
  match type_of_record with
  | Some s => String.eqb s "Quantity" || String.eqb s "Category"
  | None => false
  end.

(** [f"HK{type_of_record}TypeIdentifier"] *)
Definition identifier (type_of_record : option string) : string :=
  "HK" +:+ PyStr.format type_of_record +:+ "TypeIdentifier".

(** [records.loc[records["type"].str.contains(pat), "type"]]; the argument
    [None] is Python's [None] passed for [type_of_record]. *)
Definition get_filtered_record_types `{PF : Platform} (type_of_record : option string)
  : M Series :=
  col <- getitem "type";;
  mask <- str_contains (identifier type_of_record) col;;
  loc_rows mask "type".

(** [extract_record_types(records, type_of_record)], lines 12-35: the check,
    the filter, then [.str.replace(f"HK{type_of_record}TypeIdentifier", "")]
    and [.values]. *)
Definition extract_record_types `{PF : Platform} (type_of_record : option string)
  : M column :=
  if negb (valid_type type_of_record) then
    (emit (Error_invalid_type type_of_record);;;
     raise ValueError_unknown_type)
  else
    (record_types <- get_filtered_record_types type_of_record;;
     replaced <- str_replace (identifier type_of_record) "" record_types;;
     ret (s_values replaced)).

(** [clean_record_types(records, type_of_record)], lines 38-65: the check,
    the filter and the replacement, then [records.loc[:, "type"] =
    record_types] and [return records]. *)
Definition clean_record_types `{PF : Platform} (type_of_record : option string)
  : M DataFrame :=
  if negb (valid_type type_of_record) then
    (emit (Error_invalid_type type_of_record);;;
     raise ValueError_unknown_type)
  else
    (filtered <- get_filtered_record_types type_of_record;;
     record_types <- str_replace (identifier type_of_record) "" filtered;;
     setitem_all_rows "type" record_types;;;
     get_frame).

(** ** Building the frame: [pd.DataFrame(record_list)] *)

(** [d.get(key)] *)
Fixpoint dict_get (key : string) (d : list (string * string)) : option string :=
  match d with
  | [] => None
  | (k, v) :: rest => if String.eqb k key then Some v else dict_get key rest
  end.

(** One more key met: it is appended when it is new. *)
Definition add_key (seen : list string) (key : string) : list string :=
  if existsb (String.eqb key) seen then seen else seen ++ [key].

(** The column labels of a frame built from dictionaries: every key met, in
    the order of its first appearance. *)
Definition observed_keys (record_list : list (list (string * string))) : list string :=
  fold_left (fun seen d => fold_left add_key (List.map fst d) seen) record_list [].

(** One row per dictionary; a key that a dictionary lacks gives NaN. *)
Definition DataFrame_of (record_list : list (list (string * string))) : DataFrame :=
  mkFrame (length record_list)
          (List.map (fun key => (key, ObjCol (List.map (dict_get key) record_list)))
                    (observed_keys record_list)).

(** [name in records.columns] *)
Definition has_col (name : string) (cols : list (string * column)) : bool :=
  match lookup_col name cols with
  | Some _ => true
  | None => false
  end.

(** [records[names]]: all the labels must be columns. *)
Definition getitem_list (df : DataFrame) (names : list string)
  : exn + list (string * column) :=
  match List.filter (fun n => negb (has_col n (columns df))) names with
  | [] =>
      inr (List.map (fun n => (n, default (ObjCol []) (lookup_col n (columns df)))) names)
  | missing => inl (KeyError missing)
  end.

(** [records[names] = cols] *)
Definition setitem_list (df : DataFrame) (cols : list (string * column)) : DataFrame :=
  mkFrame (nrows df) (fold_left (fun acc nc => set_col (fst nc) (snd nc) acc) cols (columns df)).

(** [date_cols = ["creationDate", "startDate", "endDate"]] *)
Definition date_cols : list string := ["creationDate"; "startDate"; "endDate"].

(** [ET.parse(xml_path).getroot()] *)
Definition ET_parse (xml_path : string) : M Element :=
  fun w =>
    match files w !! xml_path with
    | Some (XmlDoc root) => (inr root, w)
    | Some _ => (inl XMLParseError, w)
    | None => (inl OSError, w)
    end.

Section Pipeline.

Context `{PF : Platform}.

(** [pd.to_datetime(column)], entry by entry: [to_datetime column s] is what
    the string [s] becomes as an entry of [column]: [Some (Some t)] for a
    timestamp, [Some None] for NaT (a string pandas reads as missing), and
    [None] when pandas raises on it (the default is [errors="raise"]). The
    column is an argument because pandas settles how to read the strings
    from the column as a whole (pandas 2.x infers one format from its first
    value), so that a string may be a date in one column and refused in
    another. Which strings are dates is pandas' business and is left open. *)
Variable to_datetime : list (option string) -> string -> option (option Timestamp).

(** The entries [vs] of [column] converted in order: NaN becomes NaT, and
    the first entry that pandas refuses raises. *)
Fixpoint to_datetime_values (column vs : list (option string))
  : exn + list (option Timestamp) :=
  match vs with
  | [] => inr []
  | None :: rest =>
      match to_datetime_values column rest with
      | inr ts => inr (None :: ts)
      | inl e => inl e
      end
  | Some s :: rest =>
      match to_datetime column s with
      | None => inl (DateParseError s)
      | Some t =>
          match to_datetime_values column rest with
          | inr ts => inr (t :: ts)
          | inl e => inl e
          end
      end
  end.

(** [pd.to_datetime(column)] *)
Definition to_datetime_col (c : column) : exn + column :=
  match c with
  | ObjCol vs =>
      match to_datetime_values vs vs with
      | inr ts => inr (DtCol ts)
      | inl e => inl e
      end
  | DtCol ts => inr (DtCol ts)
  end.

(** [frame.apply(pd.to_datetime)]: column by column, in order. *)
Fixpoint apply_to_datetime (cols : list (string * column))
  : exn + list (string * column) :=
  match cols with
  | [] => inr []
  | (n, c) :: rest =>
      match to_datetime_col c with
      | inl e => inl e
      | inr c' =>
          match apply_to_datetime rest with
          | inl e => inl e
          | inr rest' => inr ((n, c') :: rest')
          end
      end
  end.

(** [parse_health_data(xml_path)], lines 112-125. *)
Definition parse_health_data (xml_path : string) : M DataFrame :=
  try_log
    (root <- ET_parse xml_path;;
     let record_list := List.map attrib_of (iter "Record" root) in
     let records := DataFrame_of record_list in
     selected <- lift (getitem_list records date_cols);;
     converted <- lift (apply_to_datetime selected);;
     ret (setitem_list records converted))
    Error_parse.

(** The items of an array when all of them are [str]. *)
Fixpoint all_strings (vs : list (option string)) : option (list string) :=
  match vs with
  | [] => Some []
  | Some s :: rest =>
      match all_strings rest with
      | Some ss => Some (s :: ss)
      | None => None
      end
  | None :: _ => None
  end.

(** ["\n".join(names)]: every item must be a [str]. *)
Definition join_lines (names : column) : M string :=
  match names with
  | ObjCol vs =>
      match all_strings vs with
      | Some ss => ret (PyStr.join PyStr.nl ss)
      | None => raise TypeError_join
      end
  | DtCol vs =>
      match vs with
      | [] => ret EmptyString
      | _ :: _ => raise TypeError_join
      end
  end.

(** [process_health_records(xml_path, save_path)], lines 152-171. The frame
    that [parse_health_data] returns is the object [records] from there on. *)
Definition process_health_records (xml_path save_path : string) : M unit :=
  try_log
    (parsed <- parse_health_data xml_path;;
     put_frame parsed;;;
     quantity_types <- extract_record_types (Some "Quantity");;
     category_types <- extract_record_types (Some "Category");;
     q <- join_lines quantity_types;;
     emit (Info ("Quantity Types:" +:+ PyStr.nl +:+ q +:+ PyStr.nl));;;
     c <- join_lines category_types;;
     emit (Info ("Category Types:" +:+ PyStr.nl +:+ c +:+ PyStr.nl));;;
     _ <- clean_record_types (Some "Quantity");;
     drop_column "device";;;
     to_csv save_path;;;
     emit (Info "Data processing completed successfully"))
    Error_processing.

End Pipeline.

(** ** Views of the frame, the records and the file used in the statements *)

(** The [type] column of the frame is an object column that holds a string
    in every row: the values are [tys], one per row. *)
Definition type_strings (df : DataFrame) (tys : list string) : Prop :=
  lookup_col "type" (columns df) = Some (ObjCol (List.map Some tys))
  /\ length tys = nrows df.

(** [s[n:]] *)
Fixpoint drop_chars (n : nat) (s : string) : string :=
  match n, s with
  | S k, String _ s' => drop_chars k s'
  | _, _ => s
  end.

(** Python's [str.removeprefix]: the words of the specification for what
    happens to a selected value ("strip the literal prefix"). *)
Definition removeprefix (pat s : string) : string :=
  if PyStr.startswith pat s then drop_chars (String.length pat) s else s.

(** The specification's reading of [extract_record_types]: the selected
    values, each with the literal prefix stripped. *)
Definition extract_strips_prefix `{PF : Platform} (w : world) (c : option string)
    (tys : list string) : Prop :=
  fst (extract_record_types c w)
  = inr (ObjCol (List.map Some
                   (List.map (removeprefix (identifier c))
                             (List.filter (PyStr.contains (identifier c)) tys)))).

(** What [clean_record_types] leaves in a row of the [type] column. *)
Definition cleaned_value (pat v : string) : option string :=
  if PyStr.contains pat v then Some (PyStr.replace pat "" v) else None.

(** The frame [clean_record_types] leaves when the [type] column holds the
    strings [tys]: the column is rewritten row by row with [cleaned_value]. *)
Definition cleaned_frame (c : option string) (df : DataFrame) (tys : list string)
  : DataFrame :=
  mkFrame (nrows df)
          (set_col "type" (ObjCol (List.map (cleaned_value (identifier c)) tys))
                   (columns df)).

(** The mask [f] computes on a column of strings. *)
Definition mask_of (f : string -> bool) (tys : list string) : list (option bool) :=
  List.map (option_map f) (List.map Some tys).

(** Every column of the frame has one entry per row. *)
Definition wf_frame (df : DataFrame) : Prop :=
  List.Forall (fun nc => col_length (snd nc) = nrows df) (columns df).

(** The attribute dictionaries of the [Record] elements, in document order. *)
Definition records_of (root : Element) : list (list (string * string)) :=
  List.map attrib_of (iter "Record" root).

(** The store after [logger.error]. *)
Definition logged (w : world) (e : log_entry) : world :=
  mkWorld (frame w) (log w ++ [e]) (files w).

(** Every date label was met among the keys of the records. *)
Definition date_cols_observed (record_list : list (list (string * string))) : bool :=
  forallb (fun k => existsb (String.eqb k) (observed_keys record_list)) date_cols.

(** The column of the frame under [key], before any conversion. *)
Definition raw_column (record_list : list (list (string * string))) (key : string)
  : column :=
  ObjCol (List.map (dict_get key) record_list).

(** The entries of the frame under [key], before any conversion. *)
Definition raw_values (record_list : list (list (string * string))) (key : string)
  : list (option string) :=
  List.map (dict_get key) record_list.

(** What [pd.to_datetime] makes of an entry of [column] that it accepts:
    NaN gives NaT. *)
Definition converted (to_datetime : list (option string) -> string -> option (option Timestamp))
    (column : list (option string)) (v : option string) : option Timestamp :=
  match v with
  | Some s => match to_datetime column s with Some t => t | None => None end
  | None => None
  end.

(** [pd.to_datetime] accepts the entry in [column]: it is NaN, or a string
    on which pandas does not raise there. *)
Definition parses (to_datetime : list (option string) -> string -> option (option Timestamp))
    (column : list (option string)) (v : option string) : bool :=
  match v with
  | Some s => match to_datetime column s with Some _ => true | None => false end
  | None => true
  end.

(** [pd.to_datetime] accepts every entry of each of the three date
    columns of the records, in its column. *)
Definition date_values_parse
    (to_datetime : list (option string) -> string -> option (option Timestamp))
    (record_list : list (list (string * string))) : bool :=
  forallb (fun k => forallb (fun d => parses to_datetime (raw_values record_list k)
                                             (dict_get k d))
                            record_list)
          date_cols.

(** The column of the frame under the date label [key], once converted. *)
Definition date_column
    (to_datetime : list (option string) -> string -> option (option Timestamp))
    (record_list : list (list (string * string))) (key : string)
  : column :=
  DtCol (List.map (fun d => converted to_datetime (raw_values record_list key)
                                      (dict_get key d))
                  record_list).

(** The frame [parse_health_data] returns for these records. *)
Definition parsed_frame
    (to_datetime : list (option string) -> string -> option (option Timestamp))
    (record_list : list (list (string * string))) : DataFrame :=
  setitem_list (DataFrame_of record_list)
               (List.map (fun k => (k, date_column to_datetime record_list k)) date_cols).

(** [records.at[i, k]] as a cell. *)
Definition cell_at (df : DataFrame) (i : nat) (k : string) : option cell :=
  match lookup_col k (columns df) with
  | Some col => nth_error (col_cells col) i
  | None => None
  end.

(** The cell a record gives under label [k]: its attribute, converted as an
    entry of the column of the records when [k] is a date label, NaN (NaT)
    when the record has no such attribute. *)
Definition record_cell
    (to_datetime : list (option string) -> string -> option (option Timestamp))
    (record_list : list (list (string * string)))
    (d : list (string * string)) (k : string) : cell :=
  if existsb (String.eqb k) date_cols
  then ts_cell (converted to_datetime (raw_values record_list k) (dict_get k d))
  else str_cell (dict_get k d).

(** Where a label stands in a list of labels. *)
Fixpoint index_of (k : string) (l : list string) : option nat :=
  match l with
  | [] => None
  | x :: rest => if String.eqb x k then Some 0 else option_map S (index_of k rest)
  end.

(** The field of line [i] of the file under the header label [k]. *)
Definition csv_cell (c : csv) (i : nat) (k : string) : option cell :=
  match nth_error (csv_rows c) i, index_of k (tl (csv_header c)) with
  | Some (_, cells), Some j => nth_error cells j
  | _, _ => None
  end.

(** The [type] attributes of the records, in order (empty where absent). *)
Definition types_of (record_list : list (list (string * string))) : list string :=
  List.map (fun d => match dict_get "type" d with Some s => s | None => EmptyString end)
           record_list.

(** The names [extract_record_types] returns for the strings [tys]. *)
Definition extracted_names (c : option string) (tys : list string) : list string :=
  List.map (PyStr.replace (identifier c) "")
           (List.filter (PyStr.contains (identifier c)) tys).

(** The entry is not NaN. *)
Definition notna {A} (v : option A) : bool :=
  match v with Some _ => true | None => false end.

(** The exceptions [process_health_records] lets through. *)
Definition pipeline_error (e : exn) : Prop :=
  match e with
  | OSError | XMLParseError | KeyError _ | DateParseError _ | ValueError_mask_na => True
  | ValueError_unknown_type | AttributeError_str | TypeError_join | re_error => False
  end.

(** The log line of the pipeline for one category. *)
Definition types_line (title : string) (names : list string) : log_entry :=
  Info (title +:+ PyStr.nl +:+ PyStr.join PyStr.nl names +:+ PyStr.nl).

(** Every record has a [type] attribute. *)
Definition all_typed (record_list : list (list (string * string))) : bool :=
  forallb (fun d => notna (dict_get "type" d)) record_list.

(** The store when the pipeline is done with the table [df]: the two log
    lines of the categories, then [last], and the files [fs]. *)
Definition pipeline_store (df : DataFrame) (w : world) (tys : list string)
    (last : log_entry) (fs : gmap string file) : world :=
  mkWorld df
          (log w ++ [types_line "Quantity Types:" (extracted_names (Some "Quantity") tys);
                     types_line "Category Types:" (extracted_names (Some "Category") tys);
                     last])
          fs.

(** ** A sample platform *)

(** A stand-in for [re]: it knows the patterns that stand for themselves,
    and takes any other pattern for an error. *)
Definition sample_re_search (pat : string) : option (string -> bool) :=
  if PyStr.is_literal pat then Some (PyStr.contains pat) else None.

Definition sample_re_search_literal (pat : string)
    (Hpat : PyStr.is_literal pat = true)
  : sample_re_search pat = Some (PyStr.contains pat) :=
  @eq_ind_r bool true
    (fun b : bool =>
       (if b then Some (PyStr.contains pat) else None) = Some (PyStr.contains pat))
    eq_refl (PyStr.is_literal pat) Hpat.

(** The platform the examples run on: every path can be written, except the
    empty one. *)
#[global] Instance sample_platform : Platform := {|
  re_search := sample_re_search;
  re_search_literal := sample_re_search_literal;
  writable := fun path => negb (String.eqb path EmptyString)
|}.

(** ** Sample tables *)

(** A store that holds the frame, an empty log and no file. *)
Definition store_of (df : DataFrame) : world := mkWorld df [] ∅.

(** One Quantity record and one Category record. *)
Definition steps_and_sleep : DataFrame :=
  mkFrame 2
    [("type", ObjCol [Some "HKQuantityTypeIdentifierStepCount";
                      Some "HKCategoryTypeIdentifierSleepAnalysis"]);
     ("value", ObjCol [Some "12"; None]);
     ("device", ObjCol [Some "watch"; Some "phone"])].

(** One Quantity record. *)
Definition one_quantity : DataFrame :=
  mkFrame 1 [("type", ObjCol [Some "HKQuantityTypeIdentifierStepCount"])].

(** The rows StepCount, StepCount, HeartRate of the Quantity category. *)
Definition three_quantities : DataFrame :=
  mkFrame 3
    [("type", ObjCol [Some "HKQuantityTypeIdentifierStepCount";
                      Some "HKQuantityTypeIdentifierStepCount";
                      Some "HKQuantityTypeIdentifierHeartRate"])].

(** A Quantity record and a record with no [type] attribute. *)
Definition steps_and_untyped : DataFrame :=
  mkFrame 2
    [("type", ObjCol [Some "HKQuantityTypeIdentifierStepCount"; None]);
     ("value", ObjCol [Some "12"; Some "3"])].

(** A type identifier whose name part repeats the literal. *)
Definition doubled_prefix : DataFrame :=
  mkFrame 1
    [("type", ObjCol [Some "HKQuantityTypeIdentifierHKQuantityTypeIdentifierA"])].

(** The store after one [clean_record_types(records, "Quantity")]. *)
Definition cleaned_once `{PF : Platform} (df : DataFrame) : world :=
  snd (clean_record_types (Some "Quantity") (store_of df)).

(** ** Sample documents *)

(** The value of a decimal digit. *)
Definition digit (c : ascii) : option Z :=
  let n := nat_of_ascii c in
  if (48 <=? n)%nat && (n <=? 57)%nat then Some (Z.of_nat (n - 48)) else None.

(** The number a string of decimal digits writes, after [acc]. *)
Fixpoint digits (acc : Z) (s : string) : option Z :=
  match s with
  | EmptyString => Some acc
  | String c s' =>
      match digit c with
      | Some d => digits (10 * acc + d) s'
      | None => None
      end
  end.

(** [YYYY<sep>MM<sep>DD] read as the number [YYYYMMDD]. *)
Definition date_with (sep : ascii) (s : string) : option Timestamp :=
  match s with
  | String y1 (String y2 (String y3 (String y4 (String s1
      (String m1 (String m2 (String s2
        (String d1 (String d2 EmptyString))))))))) =>
      if Ascii.eqb s1 sep && Ascii.eqb s2 sep
      then digits 0
             (String y1 (String y2 (String y3 (String y4
                (String m1 (String m2 (String d1 (String d2 EmptyString))))))))
      else None
  | _ => None
  end.

(** The first entry of a column that is a non-empty string. *)
Fixpoint first_string (column : list (option string)) : option string :=
  match column with
  | [] => None
  | Some (String c s) :: _ => Some (String c s)
  | _ :: rest => first_string rest
  end.

(** The separator of the format a string is written in. *)
Definition separator_of (s : string) : option ascii :=
  match date_with "-" s, date_with "/" s with
  | Some _, _ => Some "-"%char
  | None, Some _ => Some "/"%char
  | None, None => None
  end.

(** A date conversion to run the model with. It reads [YYYY-MM-DD] and
    [YYYY/MM/DD]; like pandas 2.x it takes the format of a column from the
    first string of the column, and refuses a string written in the other
    format. The empty string is read as missing. *)
Definition sample_to_datetime (column : list (option string)) (s : string)
  : option (option Timestamp) :=
  match s with
  | EmptyString => Some None
  | String _ _ =>
      match first_string column with
      | Some s0 =>
          match separator_of s0 with
          | Some sep => option_map Some (date_with sep s)
          | None => None
          end
      | None => None
      end
  end.

(** A Quantity record and a Category record with all their attributes. *)
Definition step_record : Element :=
  Elem "Record"
    [("type", "HKQuantityTypeIdentifierStepCount");
     ("creationDate", "2024-01-02"); ("startDate", "2024-01-01");
     ("endDate", "2024-01-01"); ("device", "watch"); ("value", "12")] [].

Definition sleep_record : Element :=
  Elem "Record"
    [("type", "HKCategoryTypeIdentifierSleepAnalysis");
     ("creationDate", "2024-01-03"); ("startDate", "2024-01-02");
     ("endDate", "2024-01-03"); ("device", "phone")] [].

(** Two records, the second one deeper in the tree. *)
Definition export_two : Element :=
  Elem "HealthData" [("locale", "en_IN")]
    [Elem "Me" [("HKCharacteristicTypeIdentifierBiologicalSex", "x")] [];
     step_record;
     Elem "Workout" [] [sleep_record]].

(** A well-formed export with no record. *)
Definition export_empty : Element :=
  Elem "HealthData" [("locale", "en_IN")] [Elem "Me" [] []].

(** One record with no [endDate]. *)
Definition export_no_end : Element :=
  Elem "HealthData" []
    [Elem "Record"
       [("type", "HKQuantityTypeIdentifierStepCount");
        ("creationDate", "2024-01-02"); ("startDate", "2024-01-01");
        ("device", "watch")] []].

(** One record whose [startDate] is not a date. *)
Definition export_bad_date : Element :=
  Elem "HealthData" []
    [Elem "Record"
       [("type", "HKQuantityTypeIdentifierStepCount");
        ("creationDate", "2024-01-02"); ("startDate", "yesterday");
        ("endDate", "2024-01-01"); ("device", "watch")] []].

(** Two records whose [startDate] values are written in two formats: each
    is a date in a column of its own, and the second is refused in the
    column of the two. *)
Definition export_mixed_dates : Element :=
  Elem "HealthData" []
    [step_record;
     Elem "Record"
       [("type", "HKCategoryTypeIdentifierSleepAnalysis");
        ("creationDate", "2024-01-03"); ("startDate", "2024/01/02");
        ("endDate", "2024-01-03"); ("device", "phone")] []].

(** Two records, the second one with an empty [endDate]. *)
Definition export_blank_end : Element :=
  Elem "HealthData" []
    [step_record;
     Elem "Record"
       [("type", "HKCategoryTypeIdentifierSleepAnalysis");
        ("creationDate", "2024-01-03"); ("startDate", "2024-01-02");
        ("endDate", ""); ("device", "phone")] []].


(** Two records, the second one with no [type]. *)
Definition export_untyped : Element :=
  Elem "HealthData" []
    [step_record;
     Elem "Record"
       [("creationDate", "2024-01-03"); ("startDate", "2024-01-02");
        ("endDate", "2024-01-03"); ("device", "phone")] []].

(** One record with no [type] at all. *)
Definition export_no_type : Element :=
  Elem "HealthData" []
    [Elem "Record"
       [("creationDate", "2024-01-03"); ("startDate", "2024-01-02");
        ("endDate", "2024-01-03"); ("device", "phone")] []].

(** A store whose only file is the export, at [export.xml]. *)
Definition disk_with (root : Element) : world :=
  mkWorld (mkFrame 0 []) [] (<["export.xml" := XmlDoc root]> ∅).

(** * Lemmas on strings *)

Lemma startswith_app (p s : string) : PyStr.startswith p (p +:+ s) = true.
Proof.
  induction p as [|a p IH]; simpl; [reflexivity|].
  rewrite Ascii.eqb_refl. exact IH.
Qed.

Lemma drop_chars_app (p s : string) : drop_chars (String.length p) (p +:+ s) = s.
Proof. induction p as [|a p IH]; simpl; [destruct s; reflexivity | exact IH]. Qed.

Lemma removeprefix_app (p s : string) : removeprefix p (p +:+ s) = s.
Proof. unfold removeprefix. rewrite startswith_app. apply drop_chars_app. Qed.

Lemma startswith_split (p s : string) :
  PyStr.startswith p s = true -> s = p +:+ drop_chars (String.length p) s.
Proof.
  revert s. induction p as [|a p IH]; intros s H; simpl in *.
  - destruct s; reflexivity.
  - destruct s as [|b s]; [discriminate|].
    apply andb_true_iff in H as [Hab Hps].
    apply Ascii.eqb_eq in Hab. subst b.
    change (String a s = String a (p +:+ drop_chars (String.length p) s)).
    f_equal. apply IH, Hps.
Qed.

Lemma replace_from_skip (pat repl a s : string) :
  PyStr.replace_from pat repl (String.length a) (a +:+ s)
  = PyStr.replace_from pat repl 0 s.
Proof.
  induction a as [|c a IH]; simpl.
  - destruct s; reflexivity.
  - exact IH.
Qed.

Lemma replace_absent (pat repl s : string) :
  PyStr.contains pat s = false -> PyStr.replace_from pat repl 0 s = s.
Proof.
  induction s as [|c s IH]; intros H; [reflexivity|].
  cbn [PyStr.contains] in H. apply orb_false_iff in H as [Hs Hc].
  cbn [PyStr.replace_from]. rewrite Hs. f_equal. apply IH, Hc.
Qed.

(** Removing the occurrences of [pat] from [pat ++ s] removes the leading
    one and goes on in [s]. *)
Lemma replace_prefixed (pat s : string) :
  pat <> EmptyString ->
  PyStr.replace pat "" (pat +:+ s) = PyStr.replace pat "" s.
Proof.
  destruct pat as [|c p]; [congruence|]. intros _.
  unfold PyStr.replace.
  change (String c p +:+ s) with (String c (p +:+ s)).
  cbn [PyStr.replace_from].
  change (String c (p +:+ s)) with (String c p +:+ s).
  rewrite startswith_app.
  replace (String.length (String c p) - 1) with (String.length p)
    by (simpl; lia).
  rewrite replace_from_skip. reflexivity.
Qed.

(** On a value that starts with the literal and holds it nowhere else,
    removing the occurrences is stripping the prefix. *)
Lemma replace_is_removeprefix (pat v : string) :
  pat <> EmptyString ->
  PyStr.startswith pat v = true ->
  PyStr.contains pat (removeprefix pat v) = false ->
  PyStr.replace pat "" v = removeprefix pat v.
Proof.
  intros Hne Hsw Hc.
  pose proof (startswith_split pat v Hsw) as Hv.
  unfold removeprefix in *. rewrite Hsw in *.
  set (r := drop_chars (String.length pat) v) in *.
  rewrite Hv at 1. rewrite replace_prefixed by assumption.
  destruct pat as [|c p]; [congruence|].
  unfold PyStr.replace. apply replace_absent, Hc.
Qed.

Lemma identifier_nonempty (c : option string) : identifier c <> EmptyString.
Proof. unfold identifier. simpl. discriminate. Qed.

(** * Lemmas on masks, selections and alignment *)

Section Selection.

Variable f : string -> bool.
Variable g : string -> string.

Lemma mask_has_na_strings (tys : list string) : mask_has_na (mask_of f tys) = false.
Proof. induction tys as [|t tys IH]; simpl; [reflexivity | exact IH]. Qed.

Lemma mask_select_values (tys : list string) :
  mask_select (mask_of f tys) (List.map Some tys)
  = List.map Some (List.filter f tys).
Proof.
  induction tys as [|t tys IH]; simpl; [reflexivity|].
  destruct (f t); simpl; rewrite <- IH; reflexivity.
Qed.

Lemma mask_select_labels (tys : list string) (start : nat) :
  mask_select (mask_of f tys) (seq start (length tys))
  = List.filter (fun i => f (nth (i - start) tys EmptyString))
                (seq start (length tys)).
Proof.
  revert start. induction tys as [|t tys IH]; intros start; simpl; [reflexivity|].
  replace (start - start) with 0 by lia.
  assert (Htail :
    List.filter (fun i => f (nth (i - S start) tys EmptyString)) (seq (S start) (length tys))
    = List.filter
        (fun i => f match i - start with 0 => t | S m => nth m tys EmptyString end)
        (seq (S start) (length tys))).
  { apply filter_ext_in. intros i Hi. apply in_seq in Hi.
    replace (i - start) with (S (i - S start)) by lia. reflexivity. }
  destruct (f t); simpl; rewrite IH, Htail; reflexivity.
Qed.

(** Aligning the selected and rewritten values back on the frame: a row
    that was selected gets its rewritten value, any other row gets NaN. *)
Lemma series_get_selected (tys : list string) (start i : nat) :
  series_get i
    (mask_select (mask_of f tys) (seq start (length tys)))
    (List.map Some (List.map g (List.filter f tys)))
  = if (start <=? i) && (i <? start + length tys)
       && f (nth (i - start) tys EmptyString)
    then Some (g (nth (i - start) tys EmptyString))
    else None.
Proof.
  revert start. induction tys as [|t tys IH]; intros start.
  - cbn [length seq List.map List.filter mask_select series_get].
    destruct ((start <=? i) && (i <? start + 0)) eqn:E; [|reflexivity].
    apply andb_true_iff in E as [E1 E2].
    apply Nat.leb_le in E1. apply Nat.ltb_lt in E2. lia.
  - unfold mask_of.
    cbn [length seq List.map option_map]. fold (mask_of f tys).
    destruct (Nat.eq_dec i start) as [->|Hne].
    + replace (start - start) with 0 by lia. cbn [nth].
      replace ((start <=? start) && (start <? start + S (length tys))) with true
        by (symmetry; apply andb_true_iff; split;
            [apply Nat.leb_le | apply Nat.ltb_lt]; lia).
      cbn [mask_select List.filter]. destruct (f t) eqn:Ft; cbn [andb].
      * cbn [List.map series_get]. rewrite Nat.eqb_refl. reflexivity.
      * rewrite IH.
        replace (S start <=? start) with false
          by (symmetry; apply Nat.leb_gt; lia).
        reflexivity.
    + assert (Hstep :
        series_get i (mask_select (mask_of f tys) (seq (S start) (length tys)))
          (List.map Some (List.map g (List.filter f tys)))
        = if (start <=? i) && (i <? start + S (length tys))
             && f (nth (i - start) (t :: tys) EmptyString)
          then Some (g (nth (i - start) (t :: tys) EmptyString))
          else None).
      { rewrite IH.
        destruct (Nat.le_gt_cases (S start) i) as [Hle|Hgt].
        - replace (i - start) with (S (i - S start)) by lia. cbn [nth].
          replace (start <=? i) with true by (symmetry; apply Nat.leb_le; lia).
          replace (S start <=? i) with true by (symmetry; apply Nat.leb_le; lia).
          replace (start + S (length tys)) with (S start + length tys) by lia.
          reflexivity.
        - replace (S start <=? i) with false by (symmetry; apply Nat.leb_gt; lia).
          replace (start <=? i) with false by (symmetry; apply Nat.leb_gt; lia).
          reflexivity. }
      cbn [mask_select List.filter]. destruct (f t) eqn:Ft.
      * cbn [List.map series_get].
        replace (i =? start) with false by (symmetry; apply Nat.eqb_neq; exact Hne).
        exact Hstep.
      * exact Hstep.
Qed.

Lemma map_nth_seq {B} (h : string -> B) (tys : list string) (start : nat) :
  List.map (fun i => h (nth (i - start) tys EmptyString)) (seq start (length tys))
  = List.map h tys.
Proof.
  revert start. induction tys as [|t tys IH]; intros start; simpl; [reflexivity|].
  replace (start - start) with 0 by lia. f_equal.
  rewrite <- (IH (S start)). apply map_ext_in. intros i Hi. apply in_seq in Hi.
  replace (i - start) with (S (i - S start)) by lia. reflexivity.
Qed.

Lemma reindex_selected (tys : list string) :
  List.map
    (fun i => series_get i
                (mask_select (mask_of f tys) (seq 0 (length tys)))
                (List.map Some (List.map g (List.filter f tys))))
    (seq 0 (length tys))
  = List.map (fun v => if f v then Some (g v) else None) tys.
Proof.
  rewrite <- (map_nth_seq (fun v => if f v then Some (g v) else None) tys 0).
  apply map_ext_in. intros i Hi. apply in_seq in Hi.
  rewrite series_get_selected.
  replace (0 <=? i) with true by (symmetry; apply Nat.leb_le; lia).
  replace (i <? 0 + length tys) with true by (symmetry; apply Nat.ltb_lt; lia).
  reflexivity.
Qed.

Lemma filter_nth_seq (tys : list string) (start : nat) :
  List.map (fun i => nth (i - start) tys EmptyString)
    (List.filter (fun i => f (nth (i - start) tys EmptyString))
                 (seq start (length tys)))
  = List.filter f tys.
Proof.
  revert start. induction tys as [|t tys IH]; intros start; [reflexivity|].
  change (seq start (length (t :: tys)))
    with (start :: seq (S start) (length tys)).
  assert (Hhead : nth (start - start) (t :: tys) EmptyString = t)
    by (replace (start - start) with 0 by lia; reflexivity).
  assert (Htail :
    List.map (fun i => nth (i - start) (t :: tys) EmptyString)
      (List.filter (fun i => f (nth (i - start) (t :: tys) EmptyString))
                   (seq (S start) (length tys)))
    = List.filter f tys).
  { rewrite <- (IH (S start)).
    rewrite (filter_ext_in
               (fun i => f (nth (i - start) (t :: tys) EmptyString))
               (fun i => f (nth (i - S start) tys EmptyString))).
    - apply map_ext_in. intros i Hi. apply filter_In in Hi as [Hi _].
      apply in_seq in Hi.
      replace (i - start) with (S (i - S start)) by lia. reflexivity.
    - intros i Hi. apply in_seq in Hi.
      replace (i - start) with (S (i - S start)) by lia. reflexivity. }
  cbn [List.filter]. rewrite Hhead.
  destruct (f t); cbn [List.map]; rewrite Htail, ?Hhead; reflexivity.
Qed.

End Selection.

(** * Lemmas on columns *)

Lemma lookup_set_col (k n : string) (c : column) (cols : list (string * column)) :
  lookup_col k (set_col n c cols)
  = if String.eqb n k then Some c else lookup_col k cols.
Proof.
  induction cols as [|[n0 c0] rest IH]; simpl.
  - destruct (String.eqb n k); reflexivity.
  - destruct (String.eqb n0 n) eqn:E0; simpl.
    + apply String.eqb_eq in E0. subst n0.
      destruct (String.eqb n k); reflexivity.
    + rewrite IH. destruct (String.eqb n0 k) eqn:E1; [|reflexivity].
      apply String.eqb_eq in E1. subst n0. rewrite String.eqb_sym, E0. reflexivity.
Qed.

Lemma set_col_names (n : string) (c : column) (cols : list (string * column)) :
  has_col n cols = true ->
  List.map fst (set_col n c cols) = List.map fst cols.
Proof.
  unfold has_col. induction cols as [|[n0 c0] rest IH]; simpl; [discriminate|].
  destruct (String.eqb n0 n) eqn:E0; simpl; intros H; [reflexivity|].
  f_equal. apply IH, H.
Qed.

Lemma has_col_lookup (n : string) (cols : list (string * column)) (c : column) :
  lookup_col n cols = Some c -> has_col n cols = true.
Proof. unfold has_col. intros ->. reflexivity. Qed.

Lemma lookup_filter_ne (k n : string) (cols : list (string * column)) :
  k <> n ->
  lookup_col k (List.filter (fun nc => negb (String.eqb (fst nc) n)) cols)
  = lookup_col k cols.
Proof.
  intros Hne. induction cols as [|[n0 c0] rest IH]; simpl; [reflexivity|].
  destruct (String.eqb n0 n) eqn:E0; simpl.
  - apply String.eqb_eq in E0. subst n0.
    replace (String.eqb n k) with false
      by (symmetry; apply String.eqb_neq; congruence).
    exact IH.
  - rewrite IH. reflexivity.
Qed.


Lemma set_col_wf (df : DataFrame) (name : string) (c : column) :
  wf_frame df ->
  col_length c = nrows df ->
  wf_frame (mkFrame (nrows df) (set_col name c (columns df))).
Proof.
  unfold wf_frame. cbn [nrows columns]. generalize (nrows df) as n. intros n Hwf Hc.
  induction Hwf as [|[n0 c0] rest H0 Hrest IH]; cbn.
  - constructor; [exact Hc | constructor].
  - destruct (String.eqb n0 name).
    + constructor; [exact Hc | exact Hrest].
    + constructor; [exact H0 | exact IH].
Qed.

Lemma without_column_wf (df : DataFrame) (name : string) :
  wf_frame df -> wf_frame (without_column name df).
Proof.
  unfold wf_frame, without_column. cbn [nrows columns]. intros Hwf.
  rewrite List.Forall_forall in *. intros nc Hin.
  apply filter_In in Hin as [Hin _]. apply Hwf, Hin.
Qed.

Lemma lookup_col_In (k : string) (cols : list (string * column)) (col : column) :
  lookup_col k cols = Some col -> In (k, col) cols.
Proof.
  induction cols as [|[n0 c0] rest IH]; cbn; [discriminate|].
  destruct (String.eqb n0 k) eqn:E.
  - apply String.eqb_eq in E. subst n0. intros H. inversion H. left; reflexivity.
  - intros H. right. apply IH, H.
Qed.

Lemma col_cells_length (c : column) : length (col_cells c) = col_length c.
Proof. destruct c; cbn; apply length_map. Qed.

(** * What the three functions on [records] do *)

Ltac unfold_py :=
  unfold get_filtered_record_types, extract_record_types, clean_record_types,
    loc_rows, setitem_all_rows, drop_column, getitem, str_contains, str_replace,
    to_csv, try_log, lift, emit, bind, ret, raise, get_frame, put_frame.

Lemma bind_run {A B} (m : M A) (k : A -> M B) (w : world) :
  bind m k w
  = match m w with
    | (inr a, w') => k a w'
    | (inl e, w') => (inl e, w')
    end.
Proof. reflexivity. Qed.

Lemma identifier_Quantity : identifier (Some "Quantity") = "HKQuantityTypeIdentifier".
Proof. reflexivity. Qed.

Lemma identifier_Category : identifier (Some "Category") = "HKCategoryTypeIdentifier".
Proof. reflexivity. Qed.

Lemma valid_type_cases (c : option string) :
  valid_type c = true <-> c = Some "Quantity" \/ c = Some "Category".
Proof.
  destruct c as [s|]; simpl; [|split; [discriminate | intros [H|H]; discriminate]].
  rewrite orb_true_iff, !String.eqb_eq.
  split; intros [H|H]; [left | right | left | right]; congruence.
Qed.

(** The two literals of the valid categories are patterns that stand for
    themselves: [re] searches for them as substrings. *)
Lemma re_search_identifier `{PF : Platform} (c : option string) :
  valid_type c = true ->
  re_search (identifier c) = Some (PyStr.contains (identifier c)).
Proof.
  intros Hv. apply re_search_literal.
  apply valid_type_cases in Hv as [-> | ->]; vm_compute; reflexivity.
Qed.

(** The filter reads the frame and leaves the store as it found it. *)
Lemma get_filtered_record_types_store `{PF : Platform} (c : option string) (w : world) :
  snd (get_filtered_record_types c w) = w.
Proof.
  unfold_py. cbn.
  destruct (lookup_col "type" (columns (frame w))) as [[vs|vs]|] eqn:E; cbn;
    rewrite ?E; cbn; try reflexivity.
  destruct (re_search (identifier c)) as [found|]; cbn; [|reflexivity].
  destruct (mask_has_na _); cbn; rewrite ?E; reflexivity.
Qed.

Lemma get_filtered_record_types_run `{PF : Platform} (c : option string) (w : world)
    (tys : list string) :
  valid_type c = true ->
  type_strings (frame w) tys ->
  get_filtered_record_types c w
  = (inr (mkSeries
            (List.filter (fun i => PyStr.contains (identifier c) (nth i tys EmptyString))
                         (seq 0 (length tys)))
            (ObjCol (List.map Some (List.filter (PyStr.contains (identifier c)) tys)))),
     w).
Proof.
  intros Hv [Hcol Hlen]. unfold_py. cbn. rewrite Hcol. cbn.
  rewrite (re_search_identifier c Hv). cbn.
  fold (mask_of (PyStr.contains (identifier c)) tys).
  rewrite mask_has_na_strings. cbn. rewrite Hcol. cbn. rewrite <- Hlen.
  rewrite mask_select_labels, mask_select_values.
  do 3 f_equal. apply filter_ext. intros i. rewrite Nat.sub_0_r. reflexivity.
Qed.

Lemma extract_record_types_run `{PF : Platform} (c : option string) (w : world)
    (tys : list string) :
  valid_type c = true ->
  type_strings (frame w) tys ->
  extract_record_types c w
  = (inr (ObjCol (List.map Some
                    (List.map (PyStr.replace (identifier c) "")
                              (List.filter (PyStr.contains (identifier c)) tys)))),
     w).
Proof.
  intros Hv Hty. unfold extract_record_types. rewrite Hv. cbn [negb].
  unfold bind at 1. rewrite (get_filtered_record_types_run c w tys Hv Hty).
  unfold_py. cbn. rewrite !List.map_map. reflexivity.
Qed.

Lemma clean_record_types_run `{PF : Platform} (c : option string) (w : world)
    (tys : list string) :
  valid_type c = true ->
  type_strings (frame w) tys ->
  clean_record_types c w
  = (inr (cleaned_frame c (frame w) tys),
     mkWorld (cleaned_frame c (frame w) tys) (log w) (files w)).
Proof.
  intros Hv Hty. unfold clean_record_types. rewrite Hv. cbn [negb].
  unfold bind at 1. rewrite (get_filtered_record_types_run c w tys Hv Hty).
  destruct Hty as [Hcol Hlen].
  unfold_py. cbn. unfold cleaned_frame, reindex. cbn. rewrite <- Hlen.
  rewrite List.map_map.
  rewrite <- (List.map_map (PyStr.replace (identifier c) "") Some).
  assert (Hidx :
    List.filter (fun i => PyStr.contains (identifier c) (nth i tys EmptyString))
                (seq 0 (length tys))
    = mask_select (mask_of (PyStr.contains (identifier c)) tys) (seq 0 (length tys))).
  { rewrite mask_select_labels. apply filter_ext. intros i.
    rewrite Nat.sub_0_r. reflexivity. }
  rewrite Hidx, reindex_selected. reflexivity.
Qed.

(** With a valid category the three functions do the same on every
    platform: the literal is a pattern that stands for itself. *)
Lemma valid_type_any_platform (PF1 PF2 : Platform) (c : option string) (w : world) :
  valid_type c = true ->
  @get_filtered_record_types PF1 c w = @get_filtered_record_types PF2 c w
  /\ @extract_record_types PF1 c w = @extract_record_types PF2 c w
  /\ @clean_record_types PF1 c w = @clean_record_types PF2 c w.
Proof.
  intros Hv.
  assert (Hf : @get_filtered_record_types PF1 c w = @get_filtered_record_types PF2 c w).
  { unfold get_filtered_record_types. rewrite !bind_run.
    destruct (getitem "type" w) as [[e|[vs|vs]] w1]; try reflexivity.
    rewrite !bind_run. unfold str_contains.
    rewrite (@re_search_identifier PF1 c Hv), (@re_search_identifier PF2 c Hv).
    reflexivity. }
  split; [exact Hf|].
  unfold extract_record_types, clean_record_types. rewrite Hv. cbn [negb].
  rewrite !bind_run, Hf. split; reflexivity.
Qed.

(** Whatever its outcome, [extract_record_types] leaves the frame and the
    files alone (it may log). *)
Lemma extract_record_types_frame `{PF : Platform} (c : option string) (w : world) :
  frame (snd (extract_record_types c w)) = frame w
  /\ files (snd (extract_record_types c w)) = files w.
Proof.
  unfold extract_record_types.
  destruct (valid_type c); cbn [negb].
  - match goal with
    | |- frame (snd ?r) = _ /\ _ => assert (Hw : snd r = w)
    end.
    { unfold bind at 1.
      pose proof (get_filtered_record_types_store c w) as Hs.
      destruct (get_filtered_record_types c w) as [[e|ser] w1]; cbn in Hs; subst w1.
      - reflexivity.
      - unfold_py. destruct (s_values ser); reflexivity. }
    rewrite Hw. split; reflexivity.
  - unfold_py. split; reflexivity.
Qed.

(** The two outcomes of [clean_record_types]: either it raises and the
    frame is as it was, or it returns the frame of the store, in which the
    [type] column, which was there, has been replaced. *)
Lemma clean_record_types_store `{PF : Platform} (c : option string) (w : world) :
  (exists e lg, clean_record_types c w = (inl e, mkWorld (frame w) lg (files w)))
  \/ (exists col,
        has_col "type" (columns (frame w)) = true
        /\ col_length col = nrows (frame w)
        /\ clean_record_types c w
           = (inr (mkFrame (nrows (frame w)) (set_col "type" col (columns (frame w)))),
              mkWorld (mkFrame (nrows (frame w))
                               (set_col "type" col (columns (frame w))))
                      (log w) (files w))).
Proof.
  unfold clean_record_types.
  destruct (valid_type c); cbn [negb].
  2:{ left. do 2 eexists. unfold_py. cbn. reflexivity. }
  rewrite bind_run.
  pose proof (get_filtered_record_types_store c w) as Hs.
  destruct (get_filtered_record_types c w) as [[e|ser] w1] eqn:Hrun;
    cbn in Hs; subst w1.
  { left. exists e, (log w). destruct w; reflexivity. }
  assert (Hhas : has_col "type" (columns (frame w)) = true).
  { revert Hrun. unfold_py. cbn. unfold has_col.
    destruct (lookup_col "type" (columns (frame w))); [reflexivity|].
    cbn. discriminate. }
  unfold_py. destruct (s_values ser) as [vs|vs] eqn:Hvals; cbn.
  - right. eexists. split; [exact Hhas|]. split; [|reflexivity].
    cbn [col_length]. rewrite length_map, length_seq. reflexivity.
  - left. exists AttributeError_str, (log w). destruct w; reflexivity.
Qed.

(** Whatever its outcome, [clean_record_types] touches nothing but the
    [type] column of the frame (and the log). *)
Lemma clean_record_types_frame `{PF : Platform} (c : option string) (w : world) :
  files (snd (clean_record_types c w)) = files w
  /\ nrows (frame (snd (clean_record_types c w))) = nrows (frame w)
  /\ List.map fst (columns (frame (snd (clean_record_types c w))))
     = List.map fst (columns (frame w))
  /\ (forall k, k <> "type" ->
        lookup_col k (columns (frame (snd (clean_record_types c w))))
        = lookup_col k (columns (frame w)))
  /\ (wf_frame (frame w) -> wf_frame (frame (snd (clean_record_types c w)))).
Proof.
  destruct (clean_record_types_store c w)
    as [(e & lg & ->)|[col (Hhas & Hlen & ->)]]; cbn.
  - repeat split; try reflexivity. intros H; exact H.
  - repeat split.
    + apply set_col_names, Hhas.
    + intros k Hk. rewrite lookup_set_col.
      replace (String.eqb "type" k) with false
        by (symmetry; apply String.eqb_neq; congruence).
      reflexivity.
    + intros Hwf. apply set_col_wf; [exact Hwf | exact Hlen].
Qed.

(** The table [clean_record_types] returns is the frame of the store. *)
Lemma clean_record_types_returns_frame `{PF : Platform} (c : option string) (w : world)
    (df' : DataFrame) :
  fst (clean_record_types c w) = inr df' ->
  df' = frame (snd (clean_record_types c w)).
Proof.
  destruct (clean_record_types_store c w)
    as [(e & lg & ->)|[col (_ & _ & ->)]]; cbn; intros H; [discriminate|].
  inversion H. reflexivity.
Qed.

Lemma cleaned_frame_type_column (c : option string) (df : DataFrame) (tys : list string) :
  lookup_col "type" (columns (cleaned_frame c df tys))
  = Some (ObjCol (List.map (cleaned_value (identifier c)) tys)).
Proof. unfold cleaned_frame. cbn [columns]. rewrite lookup_set_col. reflexivity. Qed.

(** * The claims on the functions that work on [records] *)

(** C1 (the code departs from the claim). [clean_record_types] stores the
    selected and rewritten values with [records.loc[:, "type"] = ...], which
    aligns them on all the rows: on the table of the end-to-end scenario the
    Quantity row becomes [StepCount], and the Category row, which the claim
    says keeps [HKCategoryTypeIdentifierSleepAnalysis], becomes NaN. *)
Theorem clean_record_types_blanks_unmatched_rows :
  lookup_col "type" (columns steps_and_sleep)
  = Some (ObjCol [Some "HKQuantityTypeIdentifierStepCount";
                  Some "HKCategoryTypeIdentifierSleepAnalysis"])
  /\ clean_record_types (Some "Quantity") (store_of steps_and_sleep)
     = (inr (frame (cleaned_once steps_and_sleep)), cleaned_once steps_and_sleep)
  /\ lookup_col "type" (columns (frame (cleaned_once steps_and_sleep)))
     = Some (ObjCol [Some "StepCount"; None]).
Proof. repeat split. Qed.

(** C2 (the code departs from the claim). A second
    [clean_record_types(records, "Quantity")] is not a no-op. On a table of
    one Quantity row the second call selects no row, and the alignment of
    the empty selection overwrites the cleaned value with NaN. On the table
    of the end-to-end scenario the first call leaves a NaN in the [type]
    column, and the second call raises on the mask. *)
Theorem clean_record_types_twice_changes_table :
  lookup_col "type" (columns (frame (cleaned_once one_quantity)))
  = Some (ObjCol [Some "StepCount"])
  /\ fst (get_filtered_record_types (Some "Quantity") (cleaned_once one_quantity))
     = inr (mkSeries [] (ObjCol []))
  /\ lookup_col "type"
       (columns (frame (snd (clean_record_types (Some "Quantity")
                               (cleaned_once one_quantity)))))
     = Some (ObjCol [None])
  /\ fst (clean_record_types (Some "Quantity") (cleaned_once steps_and_sleep))
     = inl ValueError_mask_na.
Proof. repeat split. Qed.

(** C3, counterexample. [get_filtered_record_types] checks nothing: with
    the category ["Workout"], or with [None], it does not fail. *)
Lemma get_filtered_record_types_accepts_any_type :
  valid_type (Some "Workout") = false
  /\ valid_type None = false
  /\ get_filtered_record_types (Some "Workout") (store_of steps_and_sleep)
     = (inr (mkSeries [] (ObjCol [])), store_of steps_and_sleep)
  /\ get_filtered_record_types None (store_of steps_and_sleep)
     = (inr (mkSeries [] (ObjCol [])), store_of steps_and_sleep).
Proof. repeat split. Qed.

(** C3, as amended. For every category that is neither ["Quantity"] nor
    ["Category"] ([None] included), [extract_record_types] and
    [clean_record_types] log the value and raise the [ValueError] of the
    check, with the frame and the files as they were;
    [get_filtered_record_types] has no check: it never raises that error,
    and it leaves the whole store as it was. *)
Theorem invalid_type_rejected_by_extract_and_clean `{PF : Platform}
    (c : option string) (w : world) :
  valid_type c = false ->
  extract_record_types c w
  = (inl ValueError_unknown_type,
     mkWorld (frame w) (log w ++ [Error_invalid_type c]) (files w))
  /\ clean_record_types c w
     = (inl ValueError_unknown_type,
        mkWorld (frame w) (log w ++ [Error_invalid_type c]) (files w))
  /\ snd (get_filtered_record_types c w) = w
  /\ fst (get_filtered_record_types c w) <> inl ValueError_unknown_type.
Proof.
  intros Hv. unfold extract_record_types, clean_record_types. rewrite Hv.
  repeat split.
  - apply get_filtered_record_types_store.
  - unfold_py. cbn.
    destruct (lookup_col "type" (columns (frame w))) as [[vs|vs]|] eqn:E; cbn;
      rewrite ?E; cbn; try discriminate.
    destruct (re_search (identifier c)) as [found|]; cbn; [|discriminate].
    destruct (mask_has_na _); cbn; rewrite ?E; discriminate.
Qed.

Lemma invalid_type_rejected_witness :
  valid_type (Some "Workout") = false
  /\ fst (extract_record_types (Some "Workout") (store_of steps_and_sleep))
     = inl ValueError_unknown_type
  /\ frame (snd (clean_record_types (Some "Workout") (store_of steps_and_sleep)))
     = steps_and_sleep.
Proof.
  split; [reflexivity|].
  destruct (invalid_type_rejected_by_extract_and_clean
              (Some "Workout") (store_of steps_and_sleep) eq_refl)
    as (He & Hc & _).
  rewrite He, Hc. split; reflexivity.
Defined.

(** C6, counterexample. [Series.str.replace] removes every occurrence of the
    literal, not only a leading one: on the identifier
    [HKQuantityTypeIdentifierHKQuantityTypeIdentifierA] the result is [A],
    where stripping the prefix leaves [HKQuantityTypeIdentifierA]. *)
Lemma extract_record_types_removes_every_occurrence :
  valid_type (Some "Quantity") = true
  /\ type_strings doubled_prefix
       ["HKQuantityTypeIdentifierHKQuantityTypeIdentifierA"]
  /\ fst (extract_record_types (Some "Quantity") (store_of doubled_prefix))
     = inr (ObjCol [Some "A"])
  /\ ~ extract_strips_prefix (store_of doubled_prefix) (Some "Quantity")
         ["HKQuantityTypeIdentifierHKQuantityTypeIdentifierA"].
Proof.
  repeat split. unfold extract_strips_prefix. vm_compute. discriminate.
Qed.

(** C6, as amended. For a table whose [type] column holds strings and a
    valid category, [extract_record_types] returns, in row order and with
    duplicates kept, the selected values with every occurrence of the
    literal [HK<category>TypeIdentifier] removed, and leaves the store as it
    was. When every selected value starts with the literal and holds it
    nowhere else, this is the value with the prefix stripped. For the rows
    StepCount, StepCount, HeartRate of the Quantity category the result is
    [StepCount; StepCount; HeartRate]. *)
Theorem extract_record_types_names `{PF : Platform}
    (c : option string) (w : world) (tys : list string) :
  valid_type c = true ->
  type_strings (frame w) tys ->
  extract_record_types c w
  = (inr (ObjCol (List.map Some
                    (List.map (PyStr.replace (identifier c) "")
                              (List.filter (PyStr.contains (identifier c)) tys)))),
     w)
  /\ (Forall (fun v => PyStr.startswith (identifier c) v = true
                       /\ PyStr.contains (identifier c)
                            (removeprefix (identifier c) v) = false)
             (List.filter (PyStr.contains (identifier c)) tys) ->
      extract_strips_prefix w c tys)
  /\ (c = Some "Quantity" ->
      tys = ["HKQuantityTypeIdentifierStepCount";
             "HKQuantityTypeIdentifierStepCount";
             "HKQuantityTypeIdentifierHeartRate"] ->
      fst (extract_record_types c w)
      = inr (ObjCol [Some "StepCount"; Some "StepCount"; Some "HeartRate"])).
Proof.
  intros Hv Hty.
  pose proof (extract_record_types_run c w tys Hv Hty) as Hrun.
  split; [exact Hrun|]. split.
  - intros Hall. unfold extract_strips_prefix. rewrite Hrun. cbn [fst].
    do 3 f_equal. apply map_ext_in. intros v Hin.
    rewrite List.Forall_forall in Hall. destruct (Hall v Hin) as [Hsw Hc].
    apply replace_is_removeprefix; [apply identifier_nonempty | exact Hsw | exact Hc].
  - intros -> ->. rewrite Hrun. reflexivity.
Qed.

Lemma extract_record_types_names_witness :
  valid_type (Some "Quantity") = true
  /\ type_strings (frame (store_of three_quantities))
       ["HKQuantityTypeIdentifierStepCount";
        "HKQuantityTypeIdentifierStepCount";
        "HKQuantityTypeIdentifierHeartRate"]
  /\ extract_record_types (Some "Quantity") (store_of three_quantities)
     = (inr (ObjCol [Some "StepCount"; Some "StepCount"; Some "HeartRate"]),
        store_of three_quantities).
Proof.
  split; [reflexivity|]. split; [split; reflexivity|].
  apply (extract_record_types_names (Some "Quantity") (store_of three_quantities)
           ["HKQuantityTypeIdentifierStepCount";
            "HKQuantityTypeIdentifierStepCount";
            "HKQuantityTypeIdentifierHeartRate"]);
    [reflexivity | split; reflexivity].
Defined.

(** C7, counterexample. On a table one row of which has no [type] (NaN),
    [str.contains] gives NaN for that row and the selection raises: the
    rows that contain the literal are not returned. *)
Lemma get_filtered_record_types_raises_on_missing_type :
  valid_type (Some "Quantity") = true
  /\ lookup_col "type" (columns steps_and_untyped)
     = Some (ObjCol [Some "HKQuantityTypeIdentifierStepCount"; None])
  /\ get_filtered_record_types (Some "Quantity") (store_of steps_and_untyped)
     = (inl ValueError_mask_na, store_of steps_and_untyped).
Proof. repeat split. Qed.

(** C7, as amended. For a table whose [type] column holds a string in every
    row and a valid category, [get_filtered_record_types] returns the rows
    whose [type] contains the literal [HK<category>TypeIdentifier]: the
    values are those of the column that contain it, in row order and as
    they stand in the column; the labels are those of the matching rows,
    each once and in increasing order, none left out; the value kept under
    a label is the [type] of that row. The store, and so the table, is left
    as it was. *)
Theorem get_filtered_record_types_selects `{PF : Platform}
    (c : option string) (w : world) (tys : list string) :
  valid_type c = true ->
  type_strings (frame w) tys ->
  exists ser,
    get_filtered_record_types c w = (inr ser, w)
    /\ s_values ser
       = ObjCol (List.map Some (List.filter (PyStr.contains (identifier c)) tys))
    /\ s_index ser
       = List.filter (fun i => PyStr.contains (identifier c) (nth i tys EmptyString))
                     (seq 0 (length tys))
    /\ List.NoDup (s_index ser)
    /\ (forall i, In i (s_index ser)
                  <-> i < length tys
                      /\ PyStr.contains (identifier c) (nth i tys EmptyString) = true)
    /\ s_values ser
       = ObjCol (List.map (fun i => Some (nth i tys EmptyString)) (s_index ser)).
Proof.
  intros Hv Hty. eexists.
  split; [apply (get_filtered_record_types_run c w tys Hv Hty)|].
  cbn [s_values s_index].
  split; [reflexivity|]. split; [reflexivity|].
  split; [apply List.NoDup_filter, List.seq_NoDup|].
  split.
  - intros i. rewrite filter_In, in_seq. split.
    + intros [Hi Hc]. split; [lia | exact Hc].
    + intros [Hlt Hc]. split; [lia | exact Hc].
  - f_equal.
    rewrite <- (filter_nth_seq (PyStr.contains (identifier c)) tys 0).
    rewrite List.map_map.
    rewrite (filter_ext (fun i => PyStr.contains (identifier c) (nth (i - 0) tys EmptyString))
                        (fun i => PyStr.contains (identifier c) (nth i tys EmptyString)))
      by (intros i; rewrite Nat.sub_0_r; reflexivity).
    apply map_ext. intros i. rewrite Nat.sub_0_r. reflexivity.
Qed.

Lemma get_filtered_record_types_selects_witness :
  valid_type (Some "Quantity") = true
  /\ type_strings (frame (store_of steps_and_sleep))
       ["HKQuantityTypeIdentifierStepCount"; "HKCategoryTypeIdentifierSleepAnalysis"]
  /\ get_filtered_record_types (Some "Quantity") (store_of steps_and_sleep)
     = (inr (mkSeries [0] (ObjCol [Some "HKQuantityTypeIdentifierStepCount"])),
        store_of steps_and_sleep).
Proof.
  split; [reflexivity|]. split; [split; reflexivity|].
  destruct (get_filtered_record_types_selects
              (Some "Quantity") (store_of steps_and_sleep)
              ["HKQuantityTypeIdentifierStepCount";
               "HKCategoryTypeIdentifierSleepAnalysis"]
              eq_refl (conj eq_refl eq_refl))
    as (ser & Hrun & Hvals & Hidx & _).
  rewrite Hrun. destruct ser as [idx vals]. cbn in Hvals, Hidx.
  rewrite Hvals, Hidx. reflexivity.
Defined.

(** C10. For every table and valid category, [clean_record_types] leaves
    the number of rows, the column labels and their order, and every column
    other than [type] as they were, row for row, whether it returns or
    raises; the files are as they were; the table it returns is the frame
    of the store. When the [type] column holds a string in every row it
    does return, and the rewritten [type] column has one entry per row. *)
Theorem clean_record_types_keeps_other_columns `{PF : Platform}
    (c : option string) (w : world) :
  valid_type c = true ->
  nrows (frame (snd (clean_record_types c w))) = nrows (frame w)
  /\ List.map fst (columns (frame (snd (clean_record_types c w))))
     = List.map fst (columns (frame w))
  /\ (forall k, k <> "type" ->
        lookup_col k (columns (frame (snd (clean_record_types c w))))
        = lookup_col k (columns (frame w)))
  /\ files (snd (clean_record_types c w)) = files w
  /\ (forall df', fst (clean_record_types c w) = inr df' ->
        df' = frame (snd (clean_record_types c w)))
  /\ (forall tys, type_strings (frame w) tys ->
        exists df' vs,
          clean_record_types c w = (inr df', mkWorld df' (log w) (files w))
          /\ lookup_col "type" (columns df') = Some (ObjCol vs)
          /\ length vs = nrows (frame w)).
Proof.
  intros Hv.
  destruct (clean_record_types_frame c w) as (Hfiles & Hn & Hnames & Hother & _).
  split; [exact Hn|]. split; [exact Hnames|]. split; [exact Hother|].
  split; [exact Hfiles|]. split; [apply clean_record_types_returns_frame|].
  intros tys Hty. exists (cleaned_frame c (frame w) tys). eexists.
  split; [apply clean_record_types_run; assumption|].
  split; [apply cleaned_frame_type_column|].
  rewrite length_map. apply Hty.
Qed.

Lemma clean_record_types_keeps_other_columns_witness :
  valid_type (Some "Quantity") = true
  /\ lookup_col "device"
       (columns (frame (snd (clean_record_types (Some "Quantity")
                               (store_of steps_and_sleep)))))
     = Some (ObjCol [Some "watch"; Some "phone"])
  /\ lookup_col "value"
       (columns (frame (snd (clean_record_types (Some "Quantity")
                               (store_of steps_and_untyped)))))
     = Some (ObjCol [Some "12"; Some "3"]).
Proof.
  split; [reflexivity|].
  destruct (clean_record_types_keeps_other_columns
              (Some "Quantity") (store_of steps_and_sleep) eq_refl)
    as (_ & _ & Hother & _).
  destruct (clean_record_types_keeps_other_columns
              (Some "Quantity") (store_of steps_and_untyped) eq_refl)
    as (_ & _ & Hother' & _).
  rewrite Hother, Hother' by discriminate. split; reflexivity.
Defined.

(** * The frame built from the records *)

Lemma lookup_col_map (F : string -> column) (keys : list string) (k : string) :
  lookup_col k (List.map (fun key => (key, F key)) keys)
  = if existsb (String.eqb k) keys then Some (F k) else None.
Proof.
  induction keys as [|key keys IH]; simpl; [reflexivity|].
  rewrite (String.eqb_sym k key).
  destruct (String.eqb key k) eqn:E; simpl; [|exact IH].
  apply String.eqb_eq in E. subst key. reflexivity.
Qed.

Lemma has_col_set_col (k n : string) (c : column) (cols : list (string * column)) :
  has_col k cols = true -> has_col k (set_col n c cols) = true.
Proof.
  unfold has_col. rewrite lookup_set_col.
  destruct (String.eqb n k); [reflexivity|]. intros H; exact H.
Qed.

Lemma DataFrame_of_lookup (record_list : list (list (string * string))) (k : string) :
  lookup_col k (columns (DataFrame_of record_list))
  = if existsb (String.eqb k) (observed_keys record_list)
    then Some (raw_column record_list k) else None.
Proof. unfold DataFrame_of. cbn [columns]. apply lookup_col_map. Qed.

Lemma DataFrame_of_names (record_list : list (list (string * string))) :
  List.map fst (columns (DataFrame_of record_list)) = observed_keys record_list.
Proof.
  unfold DataFrame_of. cbn [columns]. rewrite List.map_map. cbn [fst].
  apply List.map_id.
Qed.

Lemma getitem_list_date_cols (record_list : list (list (string * string))) :
  getitem_list (DataFrame_of record_list) date_cols
  = if date_cols_observed record_list
    then inr (List.map (fun k => (k, raw_column record_list k)) date_cols)
    else inl (KeyError
                (List.filter
                   (fun k => negb (existsb (String.eqb k) (observed_keys record_list)))
                   date_cols)).
Proof.
  unfold getitem_list, date_cols_observed, date_cols, has_col.
  cbn [List.filter List.map forallb].
  rewrite !DataFrame_of_lookup.
  destruct (existsb (String.eqb "creationDate") (observed_keys record_list));
    destruct (existsb (String.eqb "startDate") (observed_keys record_list));
    destruct (existsb (String.eqb "endDate") (observed_keys record_list));
    reflexivity.
Qed.

Lemma forallb_on_map {A B} (f : B -> bool) (g : A -> B) (l : list A) :
  forallb f (List.map g l) = forallb (fun a => f (g a)) l.
Proof. induction l as [|a l IH]; simpl; [reflexivity | rewrite IH; reflexivity]. Qed.

Section Conversion.

Variable to_datetime : list (option string) -> string -> option (option Timestamp).

Lemma to_datetime_values_ok (column vs : list (option string)) :
  forallb (parses to_datetime column) vs = true ->
  to_datetime_values to_datetime column vs
  = inr (List.map (converted to_datetime column) vs).
Proof.
  induction vs as [|[s|] vs IH]; cbn [forallb parses to_datetime_values List.map converted];
    [reflexivity | |].
  - destruct (to_datetime column s); [|discriminate]. cbn [andb]. intros H.
    rewrite (IH H). reflexivity.
  - cbn [andb]. intros H. rewrite (IH H). reflexivity.
Qed.

Lemma to_datetime_values_err (column vs : list (option string)) :
  forallb (parses to_datetime column) vs = false ->
  exists s, In (Some s) vs /\ to_datetime column s = None
            /\ to_datetime_values to_datetime column vs = inl (DateParseError s).
Proof.
  induction vs as [|[s|] vs IH]; cbn [forallb parses to_datetime_values];
    [discriminate | |].
  - destruct (to_datetime column s) eqn:E.
    + cbn [andb]. intros H. destruct (IH H) as (s' & Hin & Hnone & Hrun).
      exists s'. rewrite Hrun. repeat split; [right; exact Hin | exact Hnone].
    + intros _. exists s. repeat split; [left; reflexivity | exact E].
  - cbn [andb]. intros H. destruct (IH H) as (s' & Hin & Hnone & Hrun).
    exists s'. rewrite Hrun. repeat split; [right; exact Hin | exact Hnone].
Qed.

Lemma raw_column_converts (record_list : list (list (string * string))) (k : string) :
  forallb (fun d => parses to_datetime (raw_values record_list k) (dict_get k d))
          record_list = true ->
  to_datetime_col to_datetime (raw_column record_list k)
  = inr (date_column to_datetime record_list k).
Proof.
  intros H. unfold to_datetime_col, raw_column, date_column.
  fold (raw_values record_list k).
  rewrite to_datetime_values_ok
    by (unfold raw_values at 2; rewrite forallb_on_map; exact H).
  unfold raw_values at 2. rewrite List.map_map. reflexivity.
Qed.

Lemma raw_column_fails (record_list : list (list (string * string))) (k : string) :
  forallb (fun d => parses to_datetime (raw_values record_list k) (dict_get k d))
          record_list = false ->
  exists d s, In d record_list /\ dict_get k d = Some s
              /\ to_datetime (raw_values record_list k) s = None
              /\ to_datetime_col to_datetime (raw_column record_list k)
                 = inl (DateParseError s).
Proof.
  intros H. unfold to_datetime_col, raw_column.
  fold (raw_values record_list k).
  destruct (to_datetime_values_err (raw_values record_list k) (raw_values record_list k))
    as (s & Hin & Hnone & Hrun).
  { unfold raw_values at 2. rewrite forallb_on_map. exact H. }
  apply in_map_iff in Hin as (d & Hd & Hin).
  exists d, s. rewrite Hrun. repeat split; assumption.
Qed.

End Conversion.

(** * What [parse_health_data] does *)

Section ParseFacts.

Variable to_datetime : list (option string) -> string -> option (option Timestamp).

Lemma apply_to_datetime_ok (record_list : list (list (string * string))) :
  date_values_parse to_datetime record_list = true ->
  apply_to_datetime to_datetime
    (List.map (fun k => (k, raw_column record_list k)) date_cols)
  = inr (List.map (fun k => (k, date_column to_datetime record_list k)) date_cols).
Proof.
  unfold date_values_parse, date_cols. cbn [forallb List.map apply_to_datetime].
  rewrite !andb_true_iff. intros (H1 & H2 & H3 & _).
  rewrite !raw_column_converts by assumption. reflexivity.
Qed.

Lemma apply_to_datetime_err (record_list : list (list (string * string))) :
  date_values_parse to_datetime record_list = false ->
  exists k d s,
    In k date_cols /\ In d record_list /\ dict_get k d = Some s
    /\ to_datetime (raw_values record_list k) s = None
    /\ apply_to_datetime to_datetime
         (List.map (fun k => (k, raw_column record_list k)) date_cols)
       = inl (DateParseError s).
Proof.
  unfold date_values_parse, date_cols. cbn [forallb List.map apply_to_datetime].
  destruct (forallb (fun d => parses to_datetime (raw_values record_list "creationDate")
                                            (dict_get "creationDate" d)) record_list)
    eqn:H1.
  2:{ intros _. destruct (raw_column_fails to_datetime record_list _ H1)
        as (d & s & Hd & Hget & Hnone & Hrun).
      exists "creationDate", d, s. rewrite Hrun.
      repeat split; try assumption. left; reflexivity. }
  rewrite (raw_column_converts to_datetime record_list _ H1).
  destruct (forallb (fun d => parses to_datetime (raw_values record_list "startDate")
                                            (dict_get "startDate" d)) record_list)
    eqn:H2.
  2:{ intros _. destruct (raw_column_fails to_datetime record_list _ H2)
        as (d & s & Hd & Hget & Hnone & Hrun).
      exists "startDate", d, s. rewrite Hrun.
      repeat split; try assumption. right; left; reflexivity. }
  rewrite (raw_column_converts to_datetime record_list _ H2).
  destruct (forallb (fun d => parses to_datetime (raw_values record_list "endDate")
                                            (dict_get "endDate" d)) record_list)
    eqn:H3.
  { cbn. discriminate. }
  intros _. destruct (raw_column_fails to_datetime record_list _ H3)
    as (d & s & Hd & Hget & Hnone & Hrun).
  exists "endDate", d, s. rewrite Hrun.
  repeat split; try assumption. right; right; left; reflexivity.
Qed.

Lemma parse_health_data_ok (w : world) (xml_path : string) (root : Element) :
  files w !! xml_path = Some (XmlDoc root) ->
  date_cols_observed (records_of root) = true ->
  date_values_parse to_datetime (records_of root) = true ->
  parse_health_data to_datetime xml_path w
  = (inr (parsed_frame to_datetime (records_of root)), w).
Proof.
  intros Hfile Hobs Hdates.
  unfold parse_health_data, try_log. rewrite bind_run.
  unfold ET_parse. rewrite Hfile. cbv zeta. fold (records_of root).
  rewrite bind_run. unfold lift at 1. rewrite getitem_list_date_cols, Hobs.
  rewrite bind_run. unfold lift. rewrite (apply_to_datetime_ok _ Hdates).
  reflexivity.
Qed.

Lemma parse_health_data_missing (w : world) (xml_path : string) (root : Element) :
  files w !! xml_path = Some (XmlDoc root) ->
  date_cols_observed (records_of root) = false ->
  parse_health_data to_datetime xml_path w
  = (let e := KeyError
                (List.filter
                   (fun k => negb (existsb (String.eqb k)
                                           (observed_keys (records_of root))))
                   date_cols) in
     (inl e, logged w (Error_parse e))).
Proof.
  intros Hfile Hobs.
  unfold parse_health_data, try_log. rewrite bind_run.
  unfold ET_parse. rewrite Hfile. cbv zeta. fold (records_of root).
  rewrite bind_run. unfold lift at 1. rewrite getitem_list_date_cols, Hobs.
  reflexivity.
Qed.

Lemma parse_health_data_bad_date (w : world) (xml_path : string) (root : Element) :
  files w !! xml_path = Some (XmlDoc root) ->
  date_cols_observed (records_of root) = true ->
  date_values_parse to_datetime (records_of root) = false ->
  exists k d s,
    In k date_cols /\ In d (records_of root) /\ dict_get k d = Some s
    /\ to_datetime (raw_values (records_of root) k) s = None
    /\ parse_health_data to_datetime xml_path w
       = (inl (DateParseError s), logged w (Error_parse (DateParseError s))).
Proof.
  intros Hfile Hobs Hdates.
  destruct (apply_to_datetime_err _ Hdates) as (k & d & s & Hk & Hd & Hget & Hnone & Hrun).
  exists k, d, s. repeat split; try assumption.
  unfold parse_health_data, try_log. rewrite bind_run.
  unfold ET_parse. rewrite Hfile. cbv zeta. fold (records_of root).
  rewrite bind_run. unfold lift at 1. rewrite getitem_list_date_cols, Hobs.
  rewrite bind_run. unfold lift. rewrite Hrun. reflexivity.
Qed.

Lemma parse_health_data_no_document (w : world) (xml_path : string) :
  (forall root, files w !! xml_path <> Some (XmlDoc root)) ->
  exists e, parse_health_data to_datetime xml_path w
            = (inl e, logged w (Error_parse e)).
Proof.
  intros Hfile. unfold parse_health_data, try_log. rewrite bind_run.
  unfold ET_parse.
  destruct (files w !! xml_path) as [[root| |c]|] eqn:E.
  - exfalso. apply (Hfile root). reflexivity.
  - eexists. reflexivity.
  - eexists. reflexivity.
  - eexists. reflexivity.
Qed.

(** A successful parse read a document whose records carry the three date
    labels and, under them, only values that [pd.to_datetime] accepts in
    their column; it returns [parsed_frame] and leaves the store as it
    was. *)
Lemma parse_health_data_inv (w w' : world) (xml_path : string) (df : DataFrame) :
  parse_health_data to_datetime xml_path w = (inr df, w') ->
  exists root,
    files w !! xml_path = Some (XmlDoc root)
    /\ date_cols_observed (records_of root) = true
    /\ date_values_parse to_datetime (records_of root) = true
    /\ df = parsed_frame to_datetime (records_of root)
    /\ w' = w.
Proof.
  intros Hrun.
  destruct (files w !! xml_path) as [[root| |c]|] eqn:Hfile.
  2,3,4: destruct (parse_health_data_no_document w xml_path) as [e He];
         [intros root; rewrite Hfile; discriminate | congruence].
  exists root. split; [reflexivity|].
  destruct (date_cols_observed (records_of root)) eqn:Hobs.
  2:{ rewrite (parse_health_data_missing w xml_path root Hfile Hobs) in Hrun.
      discriminate. }
  destruct (date_values_parse to_datetime (records_of root)) eqn:Hdates.
  2:{ destruct (parse_health_data_bad_date w xml_path root Hfile Hobs Hdates)
        as (k & d & s & _ & _ & _ & _ & He). congruence. }
  rewrite (parse_health_data_ok w xml_path root Hfile Hobs Hdates) in Hrun.
  inversion Hrun. repeat split; reflexivity.
Qed.

(** Whatever its outcome, [parse_health_data] leaves the frame and the
    files of the store alone. *)
Lemma parse_health_data_store (w : world) (xml_path : string) :
  frame (snd (parse_health_data to_datetime xml_path w)) = frame w
  /\ files (snd (parse_health_data to_datetime xml_path w)) = files w.
Proof.
  destruct (parse_health_data to_datetime xml_path w) as [[e|df] w'] eqn:Hrun.
  2:{ apply parse_health_data_inv in Hrun as (root & _ & _ & _ & _ & ->).
      split; reflexivity. }
  revert Hrun. unfold parse_health_data, try_log.
  match goal with
  | |- context [bind ?m ?k w] => destruct (bind m k w) as [[e0|df0] w0] eqn:Hin
  end.
  2:{ discriminate. }
  intros Hrun. inversion Hrun; subst. cbn.
  revert Hin. rewrite bind_run. unfold ET_parse.
  destruct (files w !! xml_path) as [[root| |c]|];
    try (intros H; inversion H; subst; split; reflexivity).
  cbv zeta. rewrite bind_run. unfold lift at 1.
  destruct (getitem_list _ _) as [e1|sel];
    [intros H; inversion H; subst; split; reflexivity|].
  rewrite bind_run. unfold lift.
  destruct (apply_to_datetime _ _) as [e2|conv];
    intros H; inversion H; subst; split; reflexivity.
Qed.

Lemma parsed_frame_nrows (record_list : list (list (string * string))) :
  nrows (parsed_frame to_datetime record_list) = length record_list.
Proof. reflexivity. Qed.

Lemma parsed_frame_lookup (record_list : list (list (string * string))) (k : string) :
  lookup_col k (columns (parsed_frame to_datetime record_list))
  = if existsb (String.eqb k) date_cols
    then Some (date_column to_datetime record_list k)
    else lookup_col k (columns (DataFrame_of record_list)).
Proof.
  unfold parsed_frame, setitem_list, date_cols.
  cbn [List.map fold_left fst snd columns existsb].
  rewrite !lookup_set_col.
  rewrite (String.eqb_sym k "creationDate"), (String.eqb_sym k "startDate"),
    (String.eqb_sym k "endDate").
  destruct (String.eqb "endDate" k) eqn:E3.
  { apply String.eqb_eq in E3. subst k. reflexivity. }
  destruct (String.eqb "startDate" k) eqn:E2.
  { apply String.eqb_eq in E2. subst k. reflexivity. }
  destruct (String.eqb "creationDate" k) eqn:E1.
  { apply String.eqb_eq in E1. subst k. reflexivity. }
  reflexivity.
Qed.

Lemma parsed_frame_names (record_list : list (list (string * string))) :
  date_cols_observed record_list = true ->
  List.map fst (columns (parsed_frame to_datetime record_list))
  = observed_keys record_list.
Proof.
  unfold date_cols_observed, date_cols. cbn [forallb].
  rewrite !andb_true_iff. intros (H1 & H2 & H3 & _).
  assert (Hhas : forall k, existsb (String.eqb k) (observed_keys record_list) = true ->
                           has_col k (columns (DataFrame_of record_list)) = true).
  { intros k Hk. unfold has_col. rewrite DataFrame_of_lookup, Hk. reflexivity. }
  unfold parsed_frame, setitem_list, date_cols.
  cbn [List.map fold_left fst snd columns].
  rewrite !set_col_names.
  - apply DataFrame_of_names.
  - apply Hhas, H1.
  - apply has_col_set_col, Hhas, H2.
  - apply has_col_set_col, has_col_set_col, Hhas, H3.
Qed.

Lemma DataFrame_of_wf (record_list : list (list (string * string))) :
  wf_frame (DataFrame_of record_list).
Proof.
  unfold wf_frame, DataFrame_of. cbn [nrows columns].
  apply List.Forall_forall. intros nc Hin.
  apply in_map_iff in Hin as (k & <- & _). cbn. apply length_map.
Qed.

Lemma parsed_frame_wf (record_list : list (list (string * string))) :
  wf_frame (parsed_frame to_datetime record_list).
Proof.
  unfold parsed_frame, setitem_list, date_cols.
  cbn [List.map fold_left fst snd].
  pose proof (DataFrame_of_wf record_list) as H0.
  assert (Hlen : forall k, col_length (date_column to_datetime record_list k)
                           = nrows (DataFrame_of record_list))
    by (intros k; cbn; apply length_map).
  pose proof (set_col_wf _ "creationDate" _ H0 (Hlen "creationDate")) as H1.
  pose proof (set_col_wf _ "startDate" _ H1 (Hlen "startDate")) as H2.
  exact (set_col_wf _ "endDate" _ H2 (Hlen "endDate")).
Qed.

End ParseFacts.

(** * The labels met among the records *)

Lemma add_key_In (seen : list string) (key k : string) :
  In k (add_key seen key) <-> In k seen \/ k = key.
Proof.
  unfold add_key. destruct (existsb (String.eqb key) seen) eqn:E.
  - split; [intros H; left; exact H|]. intros [H| ->]; [exact H|].
    apply existsb_exists in E as (x & Hx & Heq).
    apply String.eqb_eq in Heq. subst x. exact Hx.
  - rewrite in_app_iff. cbn [In]. split.
    + intros [H|[H|[]]]; [left; exact H | right; symmetry; exact H].
    + intros [H|H]; [left; exact H | right; left; symmetry; exact H].
Qed.

Lemma add_key_NoDup (seen : list string) (key : string) :
  List.NoDup seen -> List.NoDup (add_key seen key).
Proof.
  intros Hnd. unfold add_key. destruct (existsb (String.eqb key) seen) eqn:E;
    [exact Hnd|].
  apply List.NoDup_app; [exact Hnd | repeat constructor; intros [] |].
  intros x Hx [Hk|[]]. subst x.
  assert (Hex : existsb (String.eqb key) seen = true).
  { apply existsb_exists. exists key. split; [exact Hx | apply String.eqb_refl]. }
  congruence.
Qed.

Lemma fold_add_key_In (keys seen : list string) (k : string) :
  In k (fold_left add_key keys seen) <-> In k seen \/ In k keys.
Proof.
  revert seen. induction keys as [|key keys IH]; intros seen; cbn [fold_left In].
  - split; [intros H; left; exact H | intros [H|[]]; exact H].
  - rewrite IH, add_key_In. split.
    + intros [[H|H]|H]; [left; exact H | right; left; symmetry; exact H | right; right; exact H].
    + intros [H|[H|H]]; [left; left; exact H | left; right; symmetry; exact H | right; exact H].
Qed.

Lemma fold_add_key_NoDup (keys seen : list string) :
  List.NoDup seen -> List.NoDup (fold_left add_key keys seen).
Proof.
  revert seen. induction keys as [|key keys IH]; intros seen Hnd; cbn [fold_left];
    [exact Hnd|].
  apply IH, add_key_NoDup, Hnd.
Qed.

Lemma fold_records_In (record_list : list (list (string * string))) (seen : list string)
    (k : string) :
  In k (fold_left (fun seen d => fold_left add_key (List.map fst d) seen) record_list seen)
  <-> In k seen \/ exists d, In d record_list /\ In k (List.map fst d).
Proof.
  revert seen. induction record_list as [|d rest IH]; intros seen; cbn [fold_left].
  - split; [intros H; left; exact H | intros [H|(d & [] & _)]; exact H].
  - rewrite IH, fold_add_key_In. split.
    + intros [[H|H]|(d' & Hd' & Hk)].
      * left; exact H.
      * right. exists d. split; [left; reflexivity | exact H].
      * right. exists d'. split; [right; exact Hd' | exact Hk].
    + intros [H|(d' & [Heq|Hd'] & Hk)].
      * left; left; exact H.
      * subst d'. left; right; exact Hk.
      * right. exists d'. split; assumption.
Qed.

Lemma fold_records_NoDup (record_list : list (list (string * string))) (seen : list string) :
  List.NoDup seen ->
  List.NoDup (fold_left (fun seen d => fold_left add_key (List.map fst d) seen)
                        record_list seen).
Proof.
  revert seen. induction record_list as [|d rest IH]; intros seen Hnd; cbn [fold_left];
    [exact Hnd|].
  apply IH, fold_add_key_NoDup, Hnd.
Qed.

(** A label is a column of the frame exactly when some record has it. *)
Lemma observed_keys_In (record_list : list (list (string * string))) (k : string) :
  In k (observed_keys record_list)
  <-> exists d, In d record_list /\ In k (List.map fst d).
Proof.
  unfold observed_keys. rewrite fold_records_In. cbn [In].
  split; [intros [[]|H]; exact H | intros H; right; exact H].
Qed.

Lemma observed_keys_NoDup (record_list : list (list (string * string))) :
  List.NoDup (observed_keys record_list).
Proof. apply fold_records_NoDup. constructor. Qed.

Lemma existsb_eqb_In (k : string) (l : list string) :
  existsb (String.eqb k) l = true <-> In k l.
Proof.
  rewrite existsb_exists. split.
  - intros (x & Hx & Heq). apply String.eqb_eq in Heq. subst x. exact Hx.
  - intros H. exists k. split; [exact H | apply String.eqb_refl].
Qed.

Lemma date_cols_observed_spec (record_list : list (list (string * string))) :
  date_cols_observed record_list = true
  <-> forall k, In k date_cols ->
                exists d, In d record_list /\ In k (List.map fst d).
Proof.
  unfold date_cols_observed. rewrite forallb_forall. split.
  - intros H k Hk. apply observed_keys_In, existsb_eqb_In, H, Hk.
  - intros H k Hk. apply existsb_eqb_In, observed_keys_In, H, Hk.
Qed.

Lemma date_values_parse_spec
    (to_datetime : list (option string) -> string -> option (option Timestamp))
    (record_list : list (list (string * string))) :
  date_values_parse to_datetime record_list = true
  <-> forall k d s, In k date_cols -> In d record_list ->
                    dict_get k d = Some s ->
                    to_datetime (raw_values record_list k) s <> None.
Proof.
  unfold date_values_parse. rewrite forallb_forall. split.
  - intros H k d s Hk Hd Hget. specialize (H k Hk).
    rewrite forallb_forall in H. specialize (H d Hd).
    unfold parses in H. rewrite Hget in H.
    destruct (to_datetime (raw_values record_list k) s); [discriminate | discriminate].
  - intros H k Hk. apply forallb_forall. intros d Hd.
    unfold parses. destruct (dict_get k d) as [s|] eqn:Hget; [|reflexivity].
    specialize (H k d s Hk Hd Hget).
    destruct (to_datetime (raw_values record_list k) s); [reflexivity | congruence].
Qed.

(** * The claims on [parse_health_data] *)

Lemma parsed_frame_cell
    (to_datetime : list (option string) -> string -> option (option Timestamp))
    (record_list : list (list (string * string))) (i : nat)
    (d : list (string * string)) (k : string) :
  nth_error record_list i = Some d ->
  In k (observed_keys record_list) ->
  cell_at (parsed_frame to_datetime record_list) i k
  = Some (record_cell to_datetime record_list d k).
Proof.
  intros Hi Hk. unfold cell_at, record_cell.
  rewrite parsed_frame_lookup, DataFrame_of_lookup.
  apply existsb_eqb_In in Hk. rewrite Hk.
  destruct (existsb (String.eqb k) date_cols).
  - unfold date_column, col_cells. rewrite List.map_map.
    apply (map_nth_error
             (fun d => ts_cell (converted to_datetime (raw_values record_list k)
                                          (dict_get k d)))).
    exact Hi.
  - unfold raw_column, col_cells. rewrite List.map_map.
    apply (map_nth_error (fun d => str_cell (dict_get k d))). exact Hi.
Qed.

Lemma parsed_frame_col_length
    (to_datetime : list (option string) -> string -> option (option Timestamp))
    (record_list : list (list (string * string))) (k : string) (col : column) :
  lookup_col k (columns (parsed_frame to_datetime record_list)) = Some col ->
  col_length col = length record_list.
Proof.
  rewrite parsed_frame_lookup, DataFrame_of_lookup.
  destruct (existsb (String.eqb k) date_cols).
  - intros H. inversion H. unfold date_column. cbn. apply length_map.
  - destruct (existsb (String.eqb k) (observed_keys record_list)); [|discriminate].
    intros H. inversion H. unfold raw_column. cbn. apply length_map.
Qed.

(** C4, counterexample. A well-formed export with no [Record] element does
    not give a table of no row: [records[date_cols]] raises. *)
Lemma parse_health_data_fails_without_records :
  iter "Record" export_empty = []
  /\ fst (parse_health_data sample_to_datetime "export.xml" (disk_with export_empty))
     = inl (KeyError ["creationDate"; "startDate"; "endDate"])
  /\ ~ (exists df w',
          parse_health_data sample_to_datetime "export.xml" (disk_with export_empty)
          = (inr df, w')
          /\ nrows df = 0).
Proof.
  split; [reflexivity|]. split; [reflexivity|].
  intros (df & w' & H & _).
  assert (Hfst : fst (parse_health_data sample_to_datetime "export.xml"
                        (disk_with export_empty)) = inr df)
    by (rewrite H; reflexivity).
  vm_compute in Hfst. discriminate.
Qed.

(** C4, as amended. [pd.to_datetime] is applied to each date column as a
    whole, and what it makes of a value depends on the column the value
    stands in. For a well-formed document in which every date label
    ([creationDate], [startDate], [endDate]) is an attribute of some
    [Record] element and [pd.to_datetime] accepts every value under a date
    label as an entry of the column of that label, [parse_health_data]
    returns a table with exactly one row per [Record] element, in document
    order: the table has as many rows as the document has [Record]
    elements, every column has that many entries, and row [i] holds, under
    every label, the attribute of the [i]-th [Record] element (converted,
    in its column, under a date label). A document with no [Record] element
    makes it raise [KeyError]. *)
Theorem parse_health_data_one_row_per_record
    (to_datetime : list (option string) -> string -> option (option Timestamp))
    (w : world) (xml_path : string) (root : Element) :
  files w !! xml_path = Some (XmlDoc root) ->
  ((forall k, In k date_cols ->
      exists d, In d (records_of root) /\ In k (List.map fst d)) ->
   (forall k d s, In k date_cols -> In d (records_of root) ->
      dict_get k d = Some s ->
      to_datetime (raw_values (records_of root) k) s <> None) ->
   exists df,
     parse_health_data to_datetime xml_path w = (inr df, w)
     /\ nrows df = length (iter "Record" root)
     /\ (forall k col, lookup_col k (columns df) = Some col ->
           col_length col = length (iter "Record" root))
     /\ (forall i e k,
           nth_error (iter "Record" root) i = Some e ->
           In k (observed_keys (records_of root)) ->
           cell_at df i k
           = Some (record_cell to_datetime (records_of root) (attrib_of e) k)))
  /\ (iter "Record" root = [] ->
      parse_health_data to_datetime xml_path w
      = (inl (KeyError date_cols), logged w (Error_parse (KeyError date_cols)))).
Proof.
  intros Hfile. split.
  - intros Hobs Hdates.
    apply date_cols_observed_spec in Hobs.
    apply date_values_parse_spec in Hdates.
    exists (parsed_frame to_datetime (records_of root)).
    split; [apply parse_health_data_ok; assumption|].
    assert (Hlen : length (records_of root) = length (iter "Record" root))
      by apply length_map.
    split; [rewrite parsed_frame_nrows; exact Hlen|]. split.
    + intros k col Hcol. rewrite <- Hlen. eapply parsed_frame_col_length, Hcol.
    + intros i e k Hi Hk. apply parsed_frame_cell; [|exact Hk].
      unfold records_of. apply map_nth_error, Hi.
  - intros Hnone.
    assert (Hobs : date_cols_observed (records_of root) = false)
      by (unfold records_of; rewrite Hnone; reflexivity).
    rewrite (parse_health_data_missing to_datetime w xml_path root Hfile Hobs).
    unfold records_of. rewrite Hnone. reflexivity.
Qed.

Lemma parse_health_data_one_row_per_record_witness :
  files (disk_with export_two) !! "export.xml" = Some (XmlDoc export_two)
  /\ length (iter "Record" export_two) = 2
  /\ (exists df,
        parse_health_data sample_to_datetime "export.xml" (disk_with export_two)
        = (inr df, disk_with export_two)
        /\ nrows df = 2
        /\ cell_at df 1 "startDate" = Some (Ts 20240102%Z)
        /\ cell_at df 1 "value" = Some NaN)
  /\ fst (parse_health_data sample_to_datetime "export.xml" (disk_with export_empty))
     = inl (KeyError date_cols).
Proof.
  split; [reflexivity|]. split; [reflexivity|]. split.
  - destruct (parse_health_data_one_row_per_record sample_to_datetime
                (disk_with export_two) "export.xml" export_two eq_refl)
      as [Hrows _].
    destruct Hrows as (df & Hrun & Hn & _ & Hcell).
    + apply date_cols_observed_spec. reflexivity.
    + apply date_values_parse_spec. reflexivity.
    + exists df. split; [exact Hrun|]. split; [exact Hn|]. split.
      * apply (Hcell 1 sleep_record "startDate");
          [reflexivity | apply existsb_eqb_In; reflexivity].
      * apply (Hcell 1 sleep_record "value");
          [reflexivity | apply existsb_eqb_In; reflexivity].
  - destruct (parse_health_data_one_row_per_record sample_to_datetime
                (disk_with export_empty) "export.xml" export_empty eq_refl)
      as [_ Hnone].
    rewrite (Hnone eq_refl). reflexivity.
Defined.

(** C5, counterexample. [pd.to_datetime] accepts every date value of the
    document in its column, and yet no table comes back: no record has an
    [endDate], and [records[date_cols]] raises [KeyError]. *)
Lemma parse_health_data_fails_without_date_column :
  (forall k d s, In k date_cols -> In d (records_of export_no_end) ->
     dict_get k d = Some s ->
     sample_to_datetime (raw_values (records_of export_no_end) k) s <> None)
  /\ fst (parse_health_data sample_to_datetime "export.xml" (disk_with export_no_end))
     = inl (KeyError ["endDate"])
  /\ ~ (exists df w',
          parse_health_data sample_to_datetime "export.xml" (disk_with export_no_end)
          = (inr df, w')).
Proof.
  split; [apply date_values_parse_spec; reflexivity|].
  split; [reflexivity|].
  intros (df & w' & H).
  assert (Hfst : fst (parse_health_data sample_to_datetime "export.xml"
                        (disk_with export_no_end)) = inr df)
    by (rewrite H; reflexivity).
  vm_compute in Hfst. discriminate.
Qed.

(** C5, as amended. [pd.to_datetime] is applied to each of the three date
    columns as a whole (line 121), and what it makes of a value depends on
    the column the value stands in: a string that is a date on its own can
    be refused among the other values of its column. For a well-formed
    document in which every date label is an attribute of some [Record]
    element: if [pd.to_datetime] refuses some value under a date label as
    an entry of the column of that label, [parse_health_data] logs and
    raises the error of [pd.to_datetime] on such a value, and returns no
    table; if it accepts every such value in its column, it returns a table
    whose three date columns are datetime columns holding the converted
    values (NaT where the attribute is absent or is read as missing), and
    whose other columns are the object columns of the attribute strings, as
    built from the records. *)
Theorem parse_health_data_converts_dates
    (to_datetime : list (option string) -> string -> option (option Timestamp))
    (w : world) (xml_path : string) (root : Element) :
  files w !! xml_path = Some (XmlDoc root) ->
  (forall k, In k date_cols ->
     exists d, In d (records_of root) /\ In k (List.map fst d)) ->
  ((exists k d s, In k date_cols /\ In d (records_of root)
                  /\ dict_get k d = Some s
                  /\ to_datetime (raw_values (records_of root) k) s = None) ->
   exists k d s,
     In k date_cols /\ In d (records_of root)
     /\ dict_get k d = Some s
     /\ to_datetime (raw_values (records_of root) k) s = None
     /\ parse_health_data to_datetime xml_path w
        = (inl (DateParseError s), logged w (Error_parse (DateParseError s))))
  /\ ((forall k d s, In k date_cols -> In d (records_of root) ->
         dict_get k d = Some s ->
         to_datetime (raw_values (records_of root) k) s <> None) ->
      exists df,
        parse_health_data to_datetime xml_path w = (inr df, w)
        /\ (forall k, In k date_cols ->
              lookup_col k (columns df)
              = Some (DtCol (List.map
                               (fun d => converted to_datetime
                                           (raw_values (records_of root) k)
                                           (dict_get k d))
                               (records_of root))))
        /\ (forall k, ~ In k date_cols ->
              In k (observed_keys (records_of root)) ->
              lookup_col k (columns df)
              = Some (ObjCol (List.map (dict_get k) (records_of root))))
        /\ List.map fst (columns df) = observed_keys (records_of root)).
Proof.
  intros Hfile Hobs. apply date_cols_observed_spec in Hobs. split.
  - intros (k & d & s & Hk & Hd & Hget & Hnone).
    apply parse_health_data_bad_date; [exact Hfile | exact Hobs |].
    destruct (date_values_parse to_datetime (records_of root)) eqn:E; [|reflexivity].
    exfalso. rewrite date_values_parse_spec in E.
    exact (E k d s Hk Hd Hget Hnone).
  - intros Hdates. apply date_values_parse_spec in Hdates.
    exists (parsed_frame to_datetime (records_of root)).
    split; [apply parse_health_data_ok; assumption|].
    split; [|split].
    + intros k Hk. rewrite parsed_frame_lookup.
      apply existsb_eqb_In in Hk. rewrite Hk. reflexivity.
    + intros k Hk Hin. rewrite parsed_frame_lookup, DataFrame_of_lookup.
      destruct (existsb (String.eqb k) date_cols) eqn:E.
      { exfalso. apply Hk, existsb_eqb_In, E. }
      apply existsb_eqb_In in Hin. rewrite Hin. reflexivity.
    + apply parsed_frame_names, Hobs.
Qed.

Lemma parse_health_data_converts_dates_witness :
  (sample_to_datetime [Some "2024/01/02"] "2024/01/02" = Some (Some 20240102%Z)
   /\ raw_values (records_of export_mixed_dates) "startDate"
      = [Some "2024-01-01"; Some "2024/01/02"]
   /\ exists s,
        sample_to_datetime (raw_values (records_of export_mixed_dates) "startDate") s
        = None
        /\ fst (parse_health_data sample_to_datetime "export.xml"
                  (disk_with export_mixed_dates))
           = inl (DateParseError s))
  /\ (raw_values (records_of export_blank_end) "endDate"
      = [Some "2024-01-01"; Some ""]
      /\ exists df,
           parse_health_data sample_to_datetime "export.xml"
             (disk_with export_blank_end)
           = (inr df, disk_with export_blank_end)
           /\ lookup_col "endDate" (columns df)
              = Some (DtCol [Some 20240101%Z; None])
           /\ lookup_col "device" (columns df)
              = Some (ObjCol [Some "watch"; Some "phone"])).
Proof.
  split.
  - split; [reflexivity|]. split; [reflexivity|].
    destruct (parse_health_data_converts_dates sample_to_datetime
                (disk_with export_mixed_dates) "export.xml" export_mixed_dates eq_refl)
      as [Hbad _].
    + apply date_cols_observed_spec. reflexivity.
    + destruct Hbad as (k & d & s & Hk & _ & _ & Hnone & Hrun).
      * exists "startDate", (attrib_of (Elem "Record"
           [("type", "HKCategoryTypeIdentifierSleepAnalysis");
            ("creationDate", "2024-01-03"); ("startDate", "2024/01/02");
            ("endDate", "2024-01-03"); ("device", "phone")] [])), "2024/01/02".
        repeat split; [right; left; reflexivity | right; left; reflexivity].
      * assert (Hs : fst (parse_health_data sample_to_datetime "export.xml"
                            (disk_with export_mixed_dates))
                     = inl (DateParseError s))
          by (rewrite Hrun; reflexivity).
        exists s. split; [|exact Hs].
        vm_compute in Hs. inversion Hs. reflexivity.
  - split; [reflexivity|].
    destruct (parse_health_data_converts_dates sample_to_datetime
                (disk_with export_blank_end) "export.xml" export_blank_end eq_refl)
      as [_ Hgood].
    + apply date_cols_observed_spec. reflexivity.
    + destruct Hgood as (df & Hrun & Hdate & Hother & _).
      * apply date_values_parse_spec. reflexivity.
      * exists df. split; [exact Hrun|]. split.
        -- rewrite (Hdate "endDate") by (right; right; left; reflexivity).
           reflexivity.
        -- rewrite (Hother "device").
           ++ reflexivity.
           ++ intros [H|[H|[H|[]]]]; discriminate.
           ++ apply existsb_eqb_In. reflexivity.
Defined.

(** * What [process_health_records] does *)

Lemma join_lines_store (names : column) (w : world) : snd (join_lines names w) = w.
Proof.
  unfold join_lines. destruct names as [vs|[|t vs]];
    [destruct (all_strings vs)| |]; reflexivity.
Qed.

Lemma all_strings_Some (ss : list string) : all_strings (List.map Some ss) = Some ss.
Proof. induction ss as [|s ss IH]; cbn; [reflexivity | rewrite IH; reflexivity]. Qed.

Lemma drop_column_absent (name : string) (w : world) :
  has_col name (columns (frame w)) = false ->
  drop_column name w = (inl (KeyError [name]), w).
Proof.
  unfold has_col, drop_column. rewrite bind_run. unfold get_frame.
  destruct (lookup_col name (columns (frame w))); [discriminate | reflexivity].
Qed.

Lemma drop_column_present (name : string) (w : world) :
  has_col name (columns (frame w)) = true ->
  drop_column name w
  = (inr tt, mkWorld (without_column name (frame w)) (log w) (files w)).
Proof.
  unfold has_col, drop_column. rewrite bind_run. unfold get_frame.
  destruct (lookup_col name (columns (frame w))); [reflexivity | discriminate].
Qed.

Lemma filter_names (name : string) (cols : list (string * column)) :
  List.map fst (List.filter (fun nc => negb (String.eqb (fst nc) name)) cols)
  = List.filter (fun k => negb (String.eqb k name)) (List.map fst cols).
Proof.
  induction cols as [|[n c] rest IH]; cbn; [reflexivity|].
  destruct (String.eqb n name); cbn; rewrite IH; reflexivity.
Qed.

Section PipelineFacts.

Context `{PF : Platform}.
Variable to_datetime : list (option string) -> string -> option (option Timestamp).

(** The two outcomes of the pipeline. Either it raises, and the files are
    as they were; or every step went through: the document was parsed into
    [parsed_frame], the frame [df] that reached the drop differs from it in
    the [type] column only and has a [device] column, the output could be
    opened, and the file written is the rendering of [df] without
    [device]. *)
Ltac raised :=
  let H := fresh "Hrun" in
  intros H; inversion H; subst;
  left; do 2 eexists; (split; [reflexivity|]); cbn; congruence.

Lemma process_health_records_outcome (xml_path save_path : string) (w : world) :
  (exists e w',
      process_health_records to_datetime xml_path save_path w = (inl e, w')
      /\ files w' = files w)
  \/ (exists root df lg,
        files w !! xml_path = Some (XmlDoc root)
        /\ date_cols_observed (records_of root) = true
        /\ date_values_parse to_datetime (records_of root) = true
        /\ nrows df = length (records_of root)
        /\ List.map fst (columns df) = observed_keys (records_of root)
        /\ (forall k, k <> "type" ->
              lookup_col k (columns df)
              = lookup_col k (columns (parsed_frame to_datetime (records_of root))))
        /\ has_col "device" (columns df) = true
        /\ wf_frame df
        /\ writable save_path = true
        /\ process_health_records to_datetime xml_path save_path w
           = (inr tt,
              mkWorld (without_column "device" df) lg
                      (<[save_path := CsvFile (csv_of (without_column "device" df))]>
                         (files w)))).
Proof.
  destruct (process_health_records to_datetime xml_path save_path w)
    as [r wf] eqn:Hrun.
  revert Hrun. unfold process_health_records, try_log.
  rewrite bind_run.
  destruct (parse_health_data to_datetime xml_path w) as [[e|df0] w1] eqn:Hparse.
  { intros Hrun. inversion Hrun; subst.
    left. do 2 eexists. split; [reflexivity|]. cbn.
    pose proof (parse_health_data_store to_datetime w xml_path) as [_ Hf].
    rewrite Hparse in Hf. exact Hf. }
  apply parse_health_data_inv in Hparse as (root & Hfile & Hobs & Hdates & -> & ->).
  set (rl := records_of root) in *.
  rewrite bind_run. unfold put_frame at 1. cbv beta iota.
  (* quantity_types = extract_record_types(records, "Quantity") *)
  rewrite bind_run.
  match goal with
  | |- context [extract_record_types (Some "Quantity") ?w2] =>
      pose proof (extract_record_types_frame (Some "Quantity") w2) as [Hfr3 Hfi3];
      destruct (extract_record_types (Some "Quantity") w2) as [[e|q] w3];
      cbn [snd frame files] in Hfr3, Hfi3
  end.
  { raised. }
  (* category_types = extract_record_types(records, "Category") *)
  rewrite bind_run.
  pose proof (extract_record_types_frame (Some "Category") w3) as [Hfr4 Hfi4].
  destruct (extract_record_types (Some "Category") w3) as [[e|c] w4];
    cbn [snd] in Hfr4, Hfi4.
  { raised. }
  (* the two log lines *)
  rewrite bind_run.
  pose proof (join_lines_store q w4) as Hj.
  destruct (join_lines q w4) as [[e|qs] w5]; cbn [snd] in Hj; subst w5.
  { raised. }
  rewrite bind_run. unfold emit at 1. cbv beta iota.
  rewrite bind_run.
  match goal with
  | |- context [join_lines c ?w5] =>
      pose proof (join_lines_store c w5) as Hj;
      destruct (join_lines c w5) as [[e|cs] w6]; cbn [snd] in Hj; subst w6
  end.
  { raised. }
  rewrite bind_run. unfold emit at 1. cbv beta iota.
  (* records = clean_record_types(records, type_of_record="Quantity") *)
  rewrite bind_run.
  match goal with
  | |- context [clean_record_types (Some "Quantity") ?w6] =>
      pose proof (clean_record_types_frame (Some "Quantity") w6)
        as (Hfi7 & Hn7 & Hnames7 & Hother7 & Hwf7);
      destruct (clean_record_types (Some "Quantity") w6) as [[e|dfc] w7];
      cbn [snd frame files] in Hfi7, Hn7, Hnames7, Hother7, Hwf7
  end.
  { raised. }
  (* records.drop(columns="device", inplace=True) *)
  rewrite bind_run.
  destruct (has_col "device" (columns (frame w7))) eqn:Hdev.
  2:{ rewrite (drop_column_absent "device" w7 Hdev).
      raised. }
  rewrite (drop_column_present "device" w7 Hdev).
  (* records.to_csv(save_path) *)
  rewrite bind_run. unfold to_csv at 1. cbv beta iota.
  destruct (writable save_path) eqn:Hwr.
  2:{ raised. }
  unfold emit. cbn [frame log files].
  intros Hrun. inversion Hrun; subst.
  right. exists root, (frame w7). eexists.
  split; [exact Hfile|]. split; [exact Hobs|]. split; [exact Hdates|].
  assert (Hfr : frame w4 = parsed_frame to_datetime rl) by congruence.
  split; [rewrite Hn7, Hfr; reflexivity|].
  split; [rewrite Hnames7, Hfr; apply parsed_frame_names, Hobs|].
  split; [intros k Hk; rewrite (Hother7 k Hk), Hfr; reflexivity|].
  split; [exact Hdev|].
  split; [apply Hwf7; rewrite Hfr; apply parsed_frame_wf|].
  split; [reflexivity|].
  replace (files w7) with (files w) by congruence.
  reflexivity.
Qed.

End PipelineFacts.

Lemma index_of_lookup (G : column -> cell) (k : string) (cols : list (string * column)) :
  match index_of k (List.map fst cols) with
  | Some j => nth_error (List.map (fun nc => G (snd nc)) cols) j
  | None => None
  end
  = option_map G (lookup_col k cols).
Proof.
  induction cols as [|[n0 c0] rest IH]; cbn; [reflexivity|].
  destruct (String.eqb n0 k); cbn; [reflexivity|].
  rewrite <- IH. destruct (index_of k (List.map fst rest)); reflexivity.
Qed.

Lemma nth_error_seq0 (n i : nat) : i < n -> nth_error (seq 0 n) i = Some i.
Proof.
  intros Hi. rewrite (nth_error_nth' _ 0) by (rewrite length_seq; exact Hi).
  rewrite seq_nth by exact Hi. reflexivity.
Qed.

(** A field of the file is the cell of the frame it renders. *)
Lemma csv_of_cell (df : DataFrame) (i : nat) (k : string) :
  wf_frame df -> i < nrows df ->
  csv_cell (csv_of df) i k = cell_at df i k.
Proof.
  intros Hwf Hi. unfold csv_cell, csv_of, cell_at. cbn [csv_rows csv_header tl].
  rewrite (map_nth_error _ _ _ (nth_error_seq0 _ _ Hi)).
  rewrite (index_of_lookup (fun col => nth i (col_cells col) NaN)).
  destruct (lookup_col k (columns df)) as [col|] eqn:Hcol; cbn; [|reflexivity].
  symmetry. apply nth_error_nth'.
  rewrite col_cells_length.
  unfold wf_frame in Hwf. rewrite List.Forall_forall in Hwf.
  pose proof (Hwf _ (lookup_col_In _ _ _ Hcol)) as Hlen. cbn [snd] in Hlen.
  rewrite Hlen. exact Hi.
Qed.

(** * The claims on [process_health_records] *)




(** C9. When the pipeline succeeds, the file written at [save_path] holds:
    a header made of the empty label of the index followed by the attribute
    names met among the [Record] elements, in the order of their first
    appearance, each once, [device] left out; one line per [Record]
    element, led by the integer labels [0 .. N-1] in order, with one field
    per header label; and, on line [i] under every label other than [type],
    the attribute of the [i]-th [Record] element of the document (converted,
    as an entry of its column, for the date labels; NaN when the record
    lacks the attribute). *)
Theorem process_health_records_output `{PF : Platform}
    (to_datetime : list (option string) -> string -> option (option Timestamp))
    (w w' : world) (xml_path save_path : string) :
  process_health_records to_datetime xml_path save_path w = (inr tt, w') ->
  exists root c,
    files w !! xml_path = Some (XmlDoc root)
    /\ files w' = <[save_path := CsvFile c]> (files w)
    /\ csv_header c
       = EmptyString
           :: List.filter (fun k => negb (String.eqb k "device"))
                          (observed_keys (records_of root))
    /\ ~ In "device" (csv_header c)
    /\ List.NoDup (tl (csv_header c))
    /\ (forall k, In k (tl (csv_header c))
                  <-> k <> "device"
                      /\ exists e, In e (iter "Record" root)
                                   /\ In k (List.map fst (attrib_of e)))
    /\ List.map fst (csv_rows c) = seq 0 (length (iter "Record" root))
    /\ (forall row, In row (csv_rows c) ->
          S (length (snd row)) = length (csv_header c))
    /\ (forall i e k,
          nth_error (iter "Record" root) i = Some e ->
          In k (observed_keys (records_of root)) ->
          k <> "device" -> k <> "type" ->
          csv_cell c i k
          = Some (record_cell to_datetime (records_of root) (attrib_of e) k)).
Proof.
  intros Hrun.
  destruct (process_health_records_outcome to_datetime xml_path save_path w)
    as [(e & w0 & Hfail & _)
       |(root & df & lg & Hfile & Hobs & Hdates & Hn & Hnames & Hother & Hdev & Hwf
         & _ & Hok)].
  { rewrite Hfail in Hrun. discriminate. }
  rewrite Hok in Hrun. inversion Hrun; subst w'. clear Hrun.
  exists root, (csv_of (without_column "device" df)).
  assert (Hlen : length (records_of root) = length (iter "Record" root))
    by apply length_map.
  assert (Hhead : csv_header (csv_of (without_column "device" df))
                  = EmptyString
                      :: List.filter (fun k => negb (String.eqb k "device"))
                                     (observed_keys (records_of root))).
  { unfold csv_of, without_column. cbn [csv_header columns].
    rewrite filter_names, Hnames. reflexivity. }
  split; [exact Hfile|]. split; [reflexivity|]. split; [exact Hhead|].
  rewrite Hhead. cbn [tl].
  split.
  { intros [Hempty|Hin]; [discriminate|].
    apply filter_In in Hin as [_ Hneq]. rewrite String.eqb_refl in Hneq. discriminate. }
  split; [apply List.NoDup_filter, observed_keys_NoDup|].
  split.
  { intros k. rewrite filter_In, observed_keys_In, negb_true_iff, String.eqb_neq.
    unfold records_of. split.
    - intros [(d & Hd & Hk) Hne]. split; [exact Hne|].
      apply in_map_iff in Hd as (e & <- & He). exists e. split; assumption.
    - intros [Hne (e & He & Hk)]. split; [|exact Hne].
      exists (attrib_of e). split; [apply in_map, He | exact Hk]. }
  split.
  { unfold csv_of, without_column. cbn [csv_rows nrows columns].
    rewrite List.map_map. cbn [fst]. rewrite List.map_id, Hn, Hlen. reflexivity. }
  split.
  { intros row Hrow. unfold csv_of in Hrow. cbn [csv_rows] in Hrow.
    apply in_map_iff in Hrow as (i & <- & _). cbn [snd].
    rewrite <- Hhead. unfold csv_of. cbn [csv_header length].
    rewrite !length_map. reflexivity. }
  intros i e k Hi Hk Hnd Hnt.
  assert (Hlt : i < nrows (without_column "device" df)).
  { cbn [without_column nrows]. rewrite Hn, Hlen.
    apply nth_error_Some. rewrite Hi. discriminate. }
  rewrite (csv_of_cell _ i k (without_column_wf df "device" Hwf) Hlt).
  unfold cell_at, without_column. cbn [columns].
  rewrite (lookup_filter_ne k "device" _ Hnd), (Hother k Hnt).
  apply (parsed_frame_cell to_datetime (records_of root) i (attrib_of e) k);
    [|exact Hk].
  unfold records_of. apply map_nth_error, Hi.
Qed.

Lemma process_health_records_output_witness :
  exists w' c,
    process_health_records sample_to_datetime "export.xml" "out.csv"
      (disk_with export_two)
    = (inr tt, w')
    /\ files w' !! "out.csv" = Some (CsvFile c)
    /\ csv_header c
       = [""; "type"; "creationDate"; "startDate"; "endDate"; "value"]
    /\ List.map fst (csv_rows c) = [0; 1]
    /\ csv_cell c 0 "value" = Some (Str "12")
    /\ csv_cell c 1 "value" = Some NaN
    /\ csv_cell c 1 "startDate" = Some (Ts 20240102%Z).
Proof.
  assert (Hrun :
    process_health_records sample_to_datetime "export.xml" "out.csv"
      (disk_with export_two)
    = (inr tt,
       snd (process_health_records sample_to_datetime "export.xml" "out.csv"
              (disk_with export_two)))).
  { vm_compute. reflexivity. }
  destruct (process_health_records_output sample_to_datetime _ _ _ _ Hrun)
    as (root & c & Hfile & Hfiles & Hhead & _ & _ & _ & Hidx & _ & Hcell).
  assert (Hroot : root = export_two).
  { assert (Hdisk : files (disk_with export_two) !! "export.xml"
                    = Some (XmlDoc export_two)) by reflexivity.
    rewrite Hdisk in Hfile. inversion Hfile. reflexivity. }
  subst root.
  eexists. exists c. split; [exact Hrun|].
  split; [rewrite Hfiles; apply lookup_insert_eq|].
  split; [rewrite Hhead; reflexivity|].
  split; [rewrite Hidx; reflexivity|].
  split; [apply (Hcell 0 step_record "value");
          [reflexivity | apply existsb_eqb_In; reflexivity | discriminate | discriminate]|].
  split; [apply (Hcell 1 sleep_record "value");
          [reflexivity | apply existsb_eqb_In; reflexivity | discriminate | discriminate]|].
  apply (Hcell 1 sleep_record "startDate");
    [reflexivity | apply existsb_eqb_In; reflexivity | discriminate | discriminate].
Defined.

(** * Further properties of the functions that work on [records] *)

Lemma mask_has_na_In (f : string -> bool) (vs : list (option string)) :
  mask_has_na (List.map (option_map f) vs) = true <-> In None vs.
Proof.
  induction vs as [|[s|] vs IH]; cbn.
  - split; [discriminate | intros []].
  - rewrite IH. split; [intros H; right; exact H | intros [H|H]; [discriminate | exact H]].
  - split; [intros _; left; reflexivity | reflexivity].
Qed.

Lemma get_filtered_record_types_no_column `{PF : Platform} (c : option string)
    (w : world) :
  has_col "type" (columns (frame w)) = false ->
  get_filtered_record_types c w = (inl (KeyError ["type"]), w).
Proof.
  unfold has_col. intros H. unfold_py. cbn.
  destruct (lookup_col "type" (columns (frame w))); [discriminate | reflexivity].
Qed.

Lemma get_filtered_record_types_na `{PF : Platform} (c : option string) (w : world)
    (vs : list (option string)) (found : string -> bool) :
  lookup_col "type" (columns (frame w)) = Some (ObjCol vs) ->
  In None vs ->
  re_search (identifier c) = Some found ->
  get_filtered_record_types c w = (inl ValueError_mask_na, w).
Proof.
  intros Hcol Hna Hre. unfold_py. cbn. rewrite Hcol. cbn. rewrite Hre. cbn.
  apply (mask_has_na_In found) in Hna.
  rewrite Hna. cbn. rewrite Hcol. reflexivity.
Qed.

Lemma get_filtered_record_types_bad_pattern `{PF : Platform} (c : option string)
    (w : world) (vs : list (option string)) :
  lookup_col "type" (columns (frame w)) = Some (ObjCol vs) ->
  re_search (identifier c) = None ->
  get_filtered_record_types c w = (inl re_error, w).
Proof.
  intros Hcol Hre. unfold_py. cbn. rewrite Hcol. cbn. rewrite Hre. reflexivity.
Qed.

(** When the filter raises, so do its two callers, with the same exception
    and the store as it was. *)
Lemma filter_failure_propagates `{PF : Platform} (c : option string) (w : world)
    (e : exn) :
  valid_type c = true ->
  get_filtered_record_types c w = (inl e, w) ->
  extract_record_types c w = (inl e, w) /\ clean_record_types c w = (inl e, w).
Proof.
  intros Hv Hrun. unfold extract_record_types, clean_record_types.
  rewrite Hv. cbn [negb]. rewrite !bind_run, Hrun. split; reflexivity.
Qed.

(** X1. On a table that has no [type] column, the filter raises the
    [KeyError] of [records["type"]] for any category, and so do
    [extract_record_types] and [clean_record_types] for a valid category;
    the store is left as it was (nothing is logged by these functions). *)
Theorem type_column_required `{PF : Platform} (c : option string) (w : world) :
  has_col "type" (columns (frame w)) = false ->
  get_filtered_record_types c w = (inl (KeyError ["type"]), w)
  /\ (valid_type c = true ->
      extract_record_types c w = (inl (KeyError ["type"]), w)
      /\ clean_record_types c w = (inl (KeyError ["type"]), w)).
Proof.
  intros H. pose proof (get_filtered_record_types_no_column c w H) as Hrun.
  split; [exact Hrun|]. intros Hv. apply filter_failure_propagates; assumption.
Qed.

Lemma type_column_required_witness :
  has_col "type" (columns (frame (store_of (mkFrame 1 [("value", ObjCol [Some "12"])]))))
  = false
  /\ clean_record_types (Some "Quantity")
       (store_of (mkFrame 1 [("value", ObjCol [Some "12"])]))
     = (inl (KeyError ["type"]), store_of (mkFrame 1 [("value", ObjCol [Some "12"])])).
Proof.
  split; [reflexivity|].
  apply (type_column_required (Some "Quantity")
           (store_of (mkFrame 1 [("value", ObjCol [Some "12"])])) eq_refl).
  reflexivity.
Defined.

(** X2. Whether they return or raise, [get_filtered_record_types] leaves
    the whole store as it was, and [extract_record_types] leaves the table
    and the files as they were; with a valid category
    [extract_record_types] leaves the log alone too. *)
Theorem filter_and_extract_are_read_only `{PF : Platform}
    (c : option string) (w : world) :
  snd (get_filtered_record_types c w) = w
  /\ frame (snd (extract_record_types c w)) = frame w
  /\ files (snd (extract_record_types c w)) = files w
  /\ (valid_type c = true -> snd (extract_record_types c w) = w).
Proof.
  split; [apply get_filtered_record_types_store|].
  destruct (extract_record_types_frame c w) as [Hfr Hfi].
  split; [exact Hfr|]. split; [exact Hfi|].
  intros Hv. unfold extract_record_types. rewrite Hv. cbn [negb].
  rewrite bind_run.
  pose proof (get_filtered_record_types_store c w) as Hs.
  destruct (get_filtered_record_types c w) as [[e|ser] w1]; cbn in Hs; subst w1;
    [reflexivity|].
  unfold_py. destruct (s_values ser); reflexivity.
Qed.

Lemma filter_and_extract_are_read_only_witness :
  snd (extract_record_types (Some "Category") (store_of steps_and_untyped))
  = store_of steps_and_untyped.
Proof.
  apply (filter_and_extract_are_read_only (Some "Category") (store_of steps_and_untyped)).
  reflexivity.
Defined.

Lemma cleaned_frame_cell (c : option string) (df : DataFrame) (tys : list string)
    (i : nat) (v : string) :
  nth_error tys i = Some v ->
  cell_at (cleaned_frame c df tys) i "type"
  = Some (str_cell (cleaned_value (identifier c) v)).
Proof.
  intros Hi. unfold cell_at. rewrite cleaned_frame_type_column.
  unfold col_cells. rewrite List.map_map.
  apply (map_nth_error (fun v => str_cell (cleaned_value (identifier c) v))). exact Hi.
Qed.

(** X3. What [clean_record_types] writes, row by row: for a table whose
    [type] column holds a string in every row and a valid category, the call
    returns, and in the returned table a row whose [type] contained the
    literal [HK<category>TypeIdentifier] holds that value with every
    occurrence of the literal removed, while a row whose [type] did not
    contain it holds NaN. *)
Theorem clean_record_types_rewrites_each_row `{PF : Platform}
    (c : option string) (w : world) (tys : list string) :
  valid_type c = true ->
  type_strings (frame w) tys ->
  exists df',
    clean_record_types c w = (inr df', mkWorld df' (log w) (files w))
    /\ forall i v, nth_error tys i = Some v ->
         (PyStr.contains (identifier c) v = true ->
          cell_at df' i "type" = Some (Str (PyStr.replace (identifier c) "" v)))
         /\ (PyStr.contains (identifier c) v = false ->
             cell_at df' i "type" = Some NaN).
Proof.
  intros Hv Hty. exists (cleaned_frame c (frame w) tys).
  split; [apply clean_record_types_run; assumption|].
  intros i v Hi. rewrite (cleaned_frame_cell c (frame w) tys i v Hi).
  unfold cleaned_value. split; intros ->; reflexivity.
Qed.

Lemma clean_record_types_rewrites_each_row_witness :
  valid_type (Some "Category") = true
  /\ type_strings (frame (store_of steps_and_sleep))
       ["HKQuantityTypeIdentifierStepCount"; "HKCategoryTypeIdentifierSleepAnalysis"]
  /\ exists df',
       fst (clean_record_types (Some "Category") (store_of steps_and_sleep)) = inr df'
       /\ cell_at df' 0 "type" = Some NaN
       /\ cell_at df' 1 "type" = Some (Str "SleepAnalysis").
Proof.
  split; [reflexivity|]. split; [split; reflexivity|].
  destruct (clean_record_types_rewrites_each_row
              (Some "Category") (store_of steps_and_sleep)
              ["HKQuantityTypeIdentifierStepCount";
               "HKCategoryTypeIdentifierSleepAnalysis"]
              eq_refl (conj eq_refl eq_refl))
    as (df' & Hrun & Hrows).
  exists df'. split; [rewrite Hrun; reflexivity|]. split.
  - apply (Hrows 0 "HKQuantityTypeIdentifierStepCount" eq_refl). reflexivity.
  - apply (Hrows 1 "HKCategoryTypeIdentifierSleepAnalysis" eq_refl). reflexivity.
Defined.

Lemma notna_cleaned (c : option string) (tys : list string) :
  List.filter notna (List.map (cleaned_value (identifier c)) tys)
  = List.map Some (extracted_names c tys).
Proof.
  unfold extracted_names.
  induction tys as [|t tys IH]; [reflexivity|].
  cbn [List.map List.filter].
  assert (Hcv : cleaned_value (identifier c) t
                = if PyStr.contains (identifier c) t
                  then Some (PyStr.replace (identifier c) "" t) else None)
    by reflexivity.
  rewrite Hcv.
  destruct (PyStr.contains (identifier c) t); cbn [notna List.map]; rewrite IH;
    reflexivity.
Qed.

(** X4. [extract_record_types] and [clean_record_types] agree: for a table
    whose [type] column holds a string in every row and a valid category,
    the names the first returns are exactly the entries of the [type] column
    that are not NaN after the second, in the same order. *)
Theorem extract_matches_cleaned_column `{PF : Platform}
    (c : option string) (w : world) (tys : list string) :
  valid_type c = true ->
  type_strings (frame w) tys ->
  exists names cleaned,
    extract_record_types c w = (inr (ObjCol names), w)
    /\ lookup_col "type" (columns (frame (snd (clean_record_types c w))))
       = Some (ObjCol cleaned)
    /\ List.filter notna cleaned = names.
Proof.
  intros Hv Hty.
  exists (List.map Some (extracted_names c tys)),
         (List.map (cleaned_value (identifier c)) tys).
  split; [apply extract_record_types_run; assumption|].
  rewrite (clean_record_types_run c w tys Hv Hty). cbn [snd frame].
  split; [apply cleaned_frame_type_column | apply notna_cleaned].
Qed.

Lemma extract_matches_cleaned_column_witness :
  exists names cleaned,
    extract_record_types (Some "Quantity") (store_of steps_and_sleep)
    = (inr (ObjCol names), store_of steps_and_sleep)
    /\ cleaned = [Some "StepCount"; None]
    /\ names = [Some "StepCount"].
Proof.
  destruct (extract_matches_cleaned_column
              (Some "Quantity") (store_of steps_and_sleep)
              ["HKQuantityTypeIdentifierStepCount";
               "HKCategoryTypeIdentifierSleepAnalysis"]
              eq_refl (conj eq_refl eq_refl))
    as (names & cleaned & Hrun & Hcol & Hfilter).
  exists names, cleaned. split; [exact Hrun|].
  assert (Hc : cleaned = [Some "StepCount"; None]).
  { cbn in Hcol. inversion Hcol. reflexivity. }
  split; [exact Hc|]. rewrite <- Hfilter, Hc. reflexivity.
Defined.

(** X5. After a [clean_record_types] that met a row outside its category,
    the table can no longer be filtered. [str.contains] reads the literal
    as a regular expression, and compiles it before it looks at the column.
    For a table whose [type] column holds a string in every row, one of
    which does not contain the literal of the valid category [c]: a later
    [get_filtered_record_types] raises the [ValueError] of the NaN mask
    when [re] accepts its literal as a pattern, as it does for both valid
    categories, and [re.error] when it does not; a later
    [extract_record_types] or [clean_record_types] with a valid category
    raises the [ValueError] of the NaN mask. None of them changes the
    store. *)
Theorem cleaned_table_rejects_filters `{PF : Platform}
    (c c' : option string) (w : world) (tys : list string) (v : string) :
  valid_type c = true ->
  type_strings (frame w) tys ->
  In v tys ->
  PyStr.contains (identifier c) v = false ->
  (re_search (identifier c') <> None ->
   get_filtered_record_types c' (snd (clean_record_types c w))
   = (inl ValueError_mask_na, snd (clean_record_types c w)))
  /\ (re_search (identifier c') = None ->
      get_filtered_record_types c' (snd (clean_record_types c w))
      = (inl re_error, snd (clean_record_types c w)))
  /\ (valid_type c' = true ->
      get_filtered_record_types c' (snd (clean_record_types c w))
      = (inl ValueError_mask_na, snd (clean_record_types c w))
      /\ extract_record_types c' (snd (clean_record_types c w))
         = (inl ValueError_mask_na, snd (clean_record_types c w))
      /\ clean_record_types c' (snd (clean_record_types c w))
         = (inl ValueError_mask_na, snd (clean_record_types c w))).
Proof.
  intros Hv Hty Hin Hc.
  rewrite (clean_record_types_run c w tys Hv Hty). cbn [snd].
  set (w1 := mkWorld (cleaned_frame c (frame w) tys) (log w) (files w)).
  assert (Hcol : lookup_col "type" (columns (frame w1))
                 = Some (ObjCol (List.map (cleaned_value (identifier c)) tys)))
    by apply cleaned_frame_type_column.
  assert (Hna : In None (List.map (cleaned_value (identifier c)) tys)).
  { apply in_map_iff. exists v. split; [|exact Hin].
    unfold cleaned_value. rewrite Hc. reflexivity. }
  assert (Hrun : forall found, re_search (identifier c') = Some found ->
                   get_filtered_record_types c' w1 = (inl ValueError_mask_na, w1)).
  { intros found Hre. exact (get_filtered_record_types_na c' w1 _ found Hcol Hna Hre). }
  split; [|split].
  - destruct (re_search (identifier c')) as [found|] eqn:Hre; [|congruence].
    intros _. exact (Hrun found eq_refl).
  - intros Hre. exact (get_filtered_record_types_bad_pattern c' w1 _ Hcol Hre).
  - intros Hv'.
    pose proof (Hrun _ (re_search_identifier c' Hv')) as Hf.
    split; [exact Hf|]. apply filter_failure_propagates; assumption.
Qed.

Lemma cleaned_table_rejects_filters_witness :
  PyStr.contains (identifier (Some "Quantity")) "HKCategoryTypeIdentifierSleepAnalysis"
  = false
  /\ fst (extract_record_types (Some "Category") (cleaned_once steps_and_sleep))
     = inl ValueError_mask_na
  /\ fst (get_filtered_record_types (Some "Workout") (cleaned_once steps_and_sleep))
     = inl ValueError_mask_na
  /\ re_search (identifier (Some "(")) = None
  /\ fst (get_filtered_record_types (Some "(") (cleaned_once steps_and_sleep))
     = inl re_error.
Proof.
  split; [reflexivity|].
  split.
  { destruct (cleaned_table_rejects_filters
                (Some "Quantity") (Some "Category") (store_of steps_and_sleep)
                ["HKQuantityTypeIdentifierStepCount";
                 "HKCategoryTypeIdentifierSleepAnalysis"]
                "HKCategoryTypeIdentifierSleepAnalysis"
                eq_refl (conj eq_refl eq_refl))
      as (_ & _ & Hrest).
    - right; left; reflexivity.
    - reflexivity.
    - destruct (Hrest eq_refl) as (_ & He & _). unfold cleaned_once. rewrite He.
      reflexivity. }
  split.
  { destruct (cleaned_table_rejects_filters
                (Some "Quantity") (Some "Workout") (store_of steps_and_sleep)
                ["HKQuantityTypeIdentifierStepCount";
                 "HKCategoryTypeIdentifierSleepAnalysis"]
                "HKCategoryTypeIdentifierSleepAnalysis"
                eq_refl (conj eq_refl eq_refl))
      as (Hmask & _).
    - right; left; reflexivity.
    - reflexivity.
    - unfold cleaned_once. rewrite Hmask by discriminate. reflexivity. }
  split; [reflexivity|].
  destruct (cleaned_table_rejects_filters
              (Some "Quantity") (Some "(") (store_of steps_and_sleep)
              ["HKQuantityTypeIdentifierStepCount";
               "HKCategoryTypeIdentifierSleepAnalysis"]
              "HKCategoryTypeIdentifierSleepAnalysis"
              eq_refl (conj eq_refl eq_refl))
    as (_ & Hbad & _).
  - right; left; reflexivity.
  - reflexivity.
  - unfold cleaned_once. rewrite Hbad by reflexivity. reflexivity.
Defined.

(** * Further properties of [parse_health_data] *)

Lemma has_col_In (k : string) (cols : list (string * column)) :
  has_col k cols = true <-> In k (List.map fst cols).
Proof.
  unfold has_col. induction cols as [|[n0 c0] rest IH]; cbn [lookup_col List.map fst In].
  - split; [discriminate | intros []].
  - destruct (String.eqb n0 k) eqn:E.
    + apply String.eqb_eq in E. split; [intros _; left; exact E | reflexivity].
    + apply String.eqb_neq in E. rewrite IH.
      split; [intros H; right; exact H | intros [H|H]; [contradiction | exact H]].
Qed.

Lemma dict_get_In (k : string) (d : list (string * string)) :
  In k (List.map fst d) <-> dict_get k d <> None.
Proof.
  induction d as [|[k0 v0] rest IH]; cbn [dict_get List.map fst In].
  - split; [intros [] | congruence].
  - destruct (String.eqb k0 k) eqn:E.
    + apply String.eqb_eq in E. split; [discriminate | intros _; left; exact E].
    + apply String.eqb_neq in E. rewrite <- IH.
      split; [intros [H|H]; [contradiction | exact H] | intros H; right; exact H].
Qed.

Section ParseOutcome.

Variable to_datetime : list (option string) -> string -> option (option Timestamp).

(** The two outcomes of [parse_health_data]. *)
Lemma parse_health_data_outcome (w : world) (xml_path : string) :
  (exists df, parse_health_data to_datetime xml_path w = (inr df, w))
  \/ (exists e, parse_health_data to_datetime xml_path w
                = (inl e, logged w (Error_parse e))).
Proof.
  destruct (files w !! xml_path) as [[root| |c]|] eqn:Hfile.
  2,3,4: right; apply parse_health_data_no_document;
         intros root; rewrite Hfile; discriminate.
  destruct (date_cols_observed (records_of root)) eqn:Hobs.
  2:{ right. eexists. apply (parse_health_data_missing _ _ _ _ Hfile Hobs). }
  destruct (date_values_parse to_datetime (records_of root)) eqn:Hdates.
  2:{ right.
      destruct (parse_health_data_bad_date to_datetime w xml_path root Hfile Hobs Hdates)
        as (k & d & s & _ & _ & _ & _ & He).
      eexists. exact He. }
  left. eexists. exact (parse_health_data_ok to_datetime w xml_path root Hfile Hobs Hdates).
Qed.

End ParseOutcome.

(** X6. [parse_health_data] only reads: when it returns, the store (table,
    log, files) is as it was; when it raises, the only change is one error
    entry appended to the log, which carries the exception it re-raises. *)
Theorem parse_health_data_logs_failure_once
    (to_datetime : list (option string) -> string -> option (option Timestamp))
    (w : world) (xml_path : string) :
  (forall df w', parse_health_data to_datetime xml_path w = (inr df, w') -> w' = w)
  /\ (forall e w', parse_health_data to_datetime xml_path w = (inl e, w') ->
        w' = mkWorld (frame w) (log w ++ [Error_parse e]) (files w)).
Proof.
  destruct (parse_health_data_outcome to_datetime w xml_path) as [[df H]|[e H]];
    rewrite H; split; intros x w' Heq; inversion Heq; reflexivity.
Qed.

Lemma parse_health_data_logs_failure_once_witness :
  snd (parse_health_data sample_to_datetime "export.xml" (disk_with export_bad_date))
  = mkWorld (frame (disk_with export_bad_date))
            [Error_parse (DateParseError "yesterday")]
            (files (disk_with export_bad_date)).
Proof.
  destruct (parse_health_data_logs_failure_once sample_to_datetime
              (disk_with export_bad_date) "export.xml") as [_ Hfail].
  apply (Hfail (DateParseError "yesterday")).
  vm_compute. reflexivity.
Defined.

(** X7. The table [parse_health_data] returns is well formed: every column
    has one entry per row, no label occurs twice, and a label is a column
    exactly when it is an attribute of some [Record] element of the
    document. *)
Theorem parse_health_data_table_shape
    (to_datetime : list (option string) -> string -> option (option Timestamp))
    (w w' : world) (xml_path : string) (root : Element) (df : DataFrame) :
  files w !! xml_path = Some (XmlDoc root) ->
  parse_health_data to_datetime xml_path w = (inr df, w') ->
  wf_frame df
  /\ List.NoDup (List.map fst (columns df))
  /\ (forall k, has_col k (columns df) = true
                <-> exists e, In e (iter "Record" root)
                              /\ In k (List.map fst (attrib_of e))).
Proof.
  intros Hfile Hrun.
  apply parse_health_data_inv in Hrun as (root' & Hfile' & Hobs & _ & -> & _).
  assert (root' = root) by congruence. subst root'.
  split; [apply parsed_frame_wf|].
  rewrite (parsed_frame_names to_datetime _ Hobs).
  split; [apply observed_keys_NoDup|].
  intros k. rewrite has_col_In, (parsed_frame_names to_datetime _ Hobs), observed_keys_In.
  unfold records_of. split.
  - intros (d & Hd & Hk). apply in_map_iff in Hd as (e & <- & He).
    exists e. split; assumption.
  - intros (e & He & Hk). exists (attrib_of e). split; [apply in_map, He | exact Hk].
Qed.

Lemma parse_health_data_table_shape_witness :
  exists df,
    fst (parse_health_data sample_to_datetime "export.xml" (disk_with export_two))
    = inr df
    /\ wf_frame df
    /\ has_col "value" (columns df) = true
    /\ has_col "locale" (columns df) = false.
Proof.
  exists (parsed_frame sample_to_datetime (records_of export_two)).
  assert (Hrun : parse_health_data sample_to_datetime "export.xml" (disk_with export_two)
                 = (inr (parsed_frame sample_to_datetime (records_of export_two)),
                    disk_with export_two))
    by (apply parse_health_data_ok; reflexivity).
  destruct (parse_health_data_table_shape sample_to_datetime
              (disk_with export_two) (disk_with export_two) "export.xml" export_two
              _ eq_refl Hrun) as (Hwf & _ & _).
  split; [rewrite Hrun; reflexivity|]. split; [exact Hwf|]. split; reflexivity.
Defined.

(** * Further properties of [process_health_records] *)

Lemma all_typed_true (record_list : list (list (string * string))) :
  all_typed record_list = true ->
  List.map (dict_get "type") record_list = List.map Some (types_of record_list).
Proof.
  unfold all_typed, types_of. induction record_list as [|d rest IH]; cbn [forallb List.map];
    [reflexivity|].
  intros H. apply andb_true_iff in H as [Hd Hrest].
  rewrite (IH Hrest). destruct (dict_get "type" d); [reflexivity | discriminate].
Qed.

Lemma all_typed_false (record_list : list (list (string * string))) :
  all_typed record_list = false ->
  In None (List.map (dict_get "type") record_list).
Proof.
  unfold all_typed. induction record_list as [|d rest IH]; cbn [forallb List.map In];
    [discriminate|].
  destruct (dict_get "type" d); cbn [notna andb].
  - intros H. right. apply IH, H.
  - intros _. left. reflexivity.
Qed.

Lemma all_typed_spec (record_list : list (list (string * string))) :
  all_typed record_list = true
  <-> forall d, In d record_list -> In "type" (List.map fst d).
Proof.
  unfold all_typed. rewrite forallb_forall. split; intros H d Hd.
  - apply dict_get_In. specialize (H d Hd).
    destruct (dict_get "type" d); [discriminate | discriminate].
  - apply H, dict_get_In in Hd. destruct (dict_get "type" d); [reflexivity | congruence].
Qed.

Lemma date_cols_observed_nonempty (record_list : list (list (string * string))) :
  date_cols_observed record_list = true -> record_list <> [].
Proof. intros H ->. discriminate. Qed.

Lemma all_typed_observed (record_list : list (list (string * string))) :
  all_typed record_list = true -> record_list <> [] ->
  existsb (String.eqb "type") (observed_keys record_list) = true.
Proof.
  intros Hall Hne. apply existsb_eqb_In, observed_keys_In.
  destruct record_list as [|d rest]; [congruence|].
  exists d. split; [left; reflexivity|].
  rewrite all_typed_spec in Hall. apply Hall. left; reflexivity.
Qed.

Section PipelineCases.

Context `{PF : Platform}.
Variable to_datetime : list (option string) -> string -> option (option Timestamp).

Lemma parse_health_data_raises_only (w w' : world) (xml_path : string) (e : exn) :
  parse_health_data to_datetime xml_path w = (inl e, w') ->
  pipeline_error e.
Proof.
  destruct (files w !! xml_path) as [[root| |c]|] eqn:Hfile.
  2,3,4: unfold parse_health_data, try_log; rewrite bind_run; unfold ET_parse;
         rewrite Hfile; intros H; inversion H; exact I.
  destruct (date_cols_observed (records_of root)) eqn:Hobs.
  2:{ rewrite (parse_health_data_missing to_datetime w xml_path root Hfile Hobs).
      intros H. inversion H. exact I. }
  destruct (date_values_parse to_datetime (records_of root)) eqn:Hdates.
  2:{ destruct (parse_health_data_bad_date to_datetime w xml_path root Hfile Hobs Hdates)
        as (k & d & s & _ & _ & _ & _ & He).
      rewrite He. intros H. inversion H. exact I. }
  rewrite (parse_health_data_ok to_datetime w xml_path root Hfile Hobs Hdates).
  discriminate.
Qed.

Lemma parsed_frame_type_column (record_list : list (list (string * string))) :
  lookup_col "type" (columns (parsed_frame to_datetime record_list))
  = if existsb (String.eqb "type") (observed_keys record_list)
    then Some (ObjCol (List.map (dict_get "type") record_list)) else None.
Proof. rewrite parsed_frame_lookup, DataFrame_of_lookup. reflexivity. Qed.

Lemma parsed_frame_has_device (record_list : list (list (string * string))) :
  has_col "device" (columns (parsed_frame to_datetime record_list))
  = existsb (String.eqb "device") (observed_keys record_list).
Proof.
  unfold has_col. rewrite parsed_frame_lookup, DataFrame_of_lookup.
  change (existsb (String.eqb "device") date_cols) with false. cbv iota.
  destruct (existsb (String.eqb "device") (observed_keys record_list)); reflexivity.
Qed.

Lemma parsed_frame_type_strings (record_list : list (list (string * string))) :
  date_cols_observed record_list = true ->
  all_typed record_list = true ->
  type_strings (parsed_frame to_datetime record_list) (types_of record_list).
Proof.
  intros Hobs Hall. split.
  - rewrite parsed_frame_type_column.
    rewrite (all_typed_observed _ Hall (date_cols_observed_nonempty _ Hobs)).
    rewrite (all_typed_true _ Hall). reflexivity.
  - unfold types_of. rewrite length_map. reflexivity.
Qed.

(** A failure of the parse goes through the pipeline. *)
Lemma process_after_parse_failure (w : world) (xml_path save_path : string) (e : exn) :
  parse_health_data to_datetime xml_path w = (inl e, logged w (Error_parse e)) ->
  process_health_records to_datetime xml_path save_path w
  = (inl e, logged (logged w (Error_parse e)) (Error_processing e)).
Proof.
  intros Hparse. unfold process_health_records, try_log. rewrite bind_run, Hparse.
  reflexivity.
Qed.

(** A failure of the first filter goes through the pipeline. *)
Lemma process_after_filter_failure (w : world) (xml_path save_path : string)
    (df : DataFrame) (e : exn) :
  parse_health_data to_datetime xml_path w = (inr df, w) ->
  get_filtered_record_types (Some "Quantity") (mkWorld df (log w) (files w))
  = (inl e, mkWorld df (log w) (files w)) ->
  process_health_records to_datetime xml_path save_path w
  = (inl e, mkWorld df (log w ++ [Error_processing e]) (files w)).
Proof.
  intros Hparse Hfilter.
  destruct (filter_failure_propagates (Some "Quantity") _ e eq_refl Hfilter) as [Hex _].
  unfold process_health_records, try_log. rewrite bind_run, Hparse.
  rewrite bind_run. unfold put_frame at 1. cbv beta iota.
  rewrite bind_run, Hex. reflexivity.
Qed.

(** The pipeline on a parsed table whose [type] column holds strings. *)
Lemma process_on_typed_table (w : world) (xml_path save_path : string)
    (df : DataFrame) (tys : list string) :
  parse_health_data to_datetime xml_path w = (inr df, w) ->
  type_strings df tys ->
  process_health_records to_datetime xml_path save_path w
  = if has_col "device" (columns df)
    then if writable save_path
         then (inr tt,
               pipeline_store
                 (without_column "device" (cleaned_frame (Some "Quantity") df tys)) w tys
                 (Info "Data processing completed successfully")
                 (<[save_path :=
                      CsvFile (csv_of (without_column "device"
                                         (cleaned_frame (Some "Quantity") df tys)))]>
                    (files w)))
         else (inl OSError,
               pipeline_store
                 (without_column "device" (cleaned_frame (Some "Quantity") df tys)) w tys
                 (Error_processing OSError) (files w))
    else (inl (KeyError ["device"]),
          pipeline_store (cleaned_frame (Some "Quantity") df tys) w tys
            (Error_processing (KeyError ["device"])) (files w)).
Proof.
  intros Hparse Hty.
  assert (Hdev : has_col "device" (columns (cleaned_frame (Some "Quantity") df tys))
                 = has_col "device" (columns df)).
  { unfold has_col, cleaned_frame. cbn [columns]. rewrite lookup_set_col. reflexivity. }
  unfold process_health_records, try_log.
  rewrite bind_run, Hparse.
  rewrite bind_run. unfold put_frame at 1. cbv beta iota.
  rewrite bind_run.
  match goal with
  | |- context [extract_record_types (Some "Quantity") ?w2] =>
      rewrite (extract_record_types_run (Some "Quantity") w2 tys eq_refl Hty)
  end.
  rewrite bind_run.
  match goal with
  | |- context [extract_record_types (Some "Category") ?w2] =>
      rewrite (extract_record_types_run (Some "Category") w2 tys eq_refl Hty)
  end.
  rewrite bind_run. unfold join_lines at 1. rewrite all_strings_Some. unfold ret at 1.
  rewrite bind_run. unfold emit at 1. cbv beta iota.
  rewrite bind_run. unfold join_lines at 1. rewrite all_strings_Some. unfold ret at 1.
  rewrite bind_run. unfold emit at 1. cbv beta iota.
  rewrite bind_run.
  match goal with
  | |- context [clean_record_types (Some "Quantity") ?w3] =>
      rewrite (clean_record_types_run (Some "Quantity") w3 tys eq_refl Hty)
  end.
  rewrite bind_run. cbn [frame log files].
  destruct (has_col "device" (columns df)) eqn:E.
  - rewrite drop_column_present by (cbn [frame]; rewrite Hdev; reflexivity).
    rewrite bind_run. unfold to_csv at 1. cbv beta iota.
    destruct (writable save_path); unfold emit;
      cbn [frame log files]; unfold pipeline_store, types_line, extracted_names;
      rewrite <- !app_assoc; reflexivity.
  - rewrite drop_column_absent by (cbn [frame]; rewrite Hdev; reflexivity).
    unfold pipeline_store, types_line, extracted_names.
    cbn [frame log files]. rewrite <- !app_assoc. reflexivity.
Qed.

(** Every run of the pipeline is one of four. *)
Lemma process_health_records_trace (w : world) (xml_path save_path : string) :
  (exists e,
      parse_health_data to_datetime xml_path w = (inl e, logged w (Error_parse e))
      /\ process_health_records to_datetime xml_path save_path w
         = (inl e, logged (logged w (Error_parse e)) (Error_processing e)))
  \/ (exists root,
        files w !! xml_path = Some (XmlDoc root)
        /\ date_cols_observed (records_of root) = true
        /\ date_values_parse to_datetime (records_of root) = true
        /\ parse_health_data to_datetime xml_path w
           = (inr (parsed_frame to_datetime (records_of root)), w)
        /\ ((all_typed (records_of root) = false
             /\ exists e,
                  (e = KeyError ["type"] \/ e = ValueError_mask_na)
                  /\ process_health_records to_datetime xml_path save_path w
                     = (inl e, mkWorld (parsed_frame to_datetime (records_of root))
                                       (log w ++ [Error_processing e]) (files w)))
            \/ (all_typed (records_of root) = true
                /\ process_health_records to_datetime xml_path save_path w
                   = if existsb (String.eqb "device") (observed_keys (records_of root))
                     then if writable save_path
                          then (inr tt,
                                pipeline_store
                                  (without_column "device"
                                     (cleaned_frame (Some "Quantity")
                                        (parsed_frame to_datetime (records_of root))
                                        (types_of (records_of root))))
                                  w (types_of (records_of root))
                                  (Info "Data processing completed successfully")
                                  (<[save_path :=
                                       CsvFile
                                         (csv_of
                                            (without_column "device"
                                               (cleaned_frame (Some "Quantity")
                                                  (parsed_frame to_datetime
                                                     (records_of root))
                                                  (types_of (records_of root)))))]>
                                     (files w)))
                          else (inl OSError,
                                pipeline_store
                                  (without_column "device"
                                     (cleaned_frame (Some "Quantity")
                                        (parsed_frame to_datetime (records_of root))
                                        (types_of (records_of root))))
                                  w (types_of (records_of root))
                                  (Error_processing OSError) (files w))
                     else (inl (KeyError ["device"]),
                           pipeline_store
                             (cleaned_frame (Some "Quantity")
                                (parsed_frame to_datetime (records_of root))
                                (types_of (records_of root)))
                             w (types_of (records_of root))
                             (Error_processing (KeyError ["device"])) (files w))))).
Proof.
  destruct (parse_health_data_outcome to_datetime w xml_path) as [[df Hparse]|[e Hparse]].
  2:{ left. exists e. split; [exact Hparse | apply process_after_parse_failure, Hparse]. }
  right.
  pose proof (parse_health_data_inv _ _ _ _ _ Hparse)
    as (root & Hfile & Hobs & Hdates & -> & _).
  exists root. split; [exact Hfile|]. split; [exact Hobs|]. split; [exact Hdates|].
  split; [exact Hparse|].
  set (rl := records_of root) in *.
  destruct (all_typed rl) eqn:Hall.
  - right. split; [reflexivity|].
    rewrite (process_on_typed_table w xml_path save_path _ (types_of rl) Hparse
               (parsed_frame_type_strings rl Hobs Hall)).
    rewrite parsed_frame_has_device. reflexivity.
  - left. split; [reflexivity|].
    destruct (existsb (String.eqb "type") (observed_keys rl)) eqn:Htype.
    + exists ValueError_mask_na. split; [right; reflexivity|].
      apply process_after_filter_failure; [exact Hparse|].
      eapply get_filtered_record_types_na.
      * cbn [frame]. rewrite parsed_frame_type_column, Htype. reflexivity.
      * apply all_typed_false, Hall.
      * apply (re_search_identifier (Some "Quantity") eq_refl).
    + exists (KeyError ["type"]). split; [left; reflexivity|].
      apply process_after_filter_failure; [exact Hparse|].
      apply get_filtered_record_types_no_column.
      cbn [frame]. unfold has_col. rewrite parsed_frame_type_column, Htype. reflexivity.
Qed.

End PipelineCases.

(** X8. The exceptions the pipeline lets through: whatever the document and
    the store, [process_health_records] raises only the errors of opening
    and parsing the document, of a missing column, of a value that
    [pd.to_datetime] refuses, of a missing [type] value, or of opening the
    output; it never raises the [ValueError] of the category check, nor an
    error of [.str], of [re] or of [join]. *)
Theorem process_health_records_raises_only `{PF : Platform}
    (to_datetime : list (option string) -> string -> option (option Timestamp))
    (w w' : world) (xml_path save_path : string) (e : exn) :
  process_health_records to_datetime xml_path save_path w = (inl e, w') ->
  pipeline_error e.
Proof.
  intros Hrun.
  destruct (process_health_records_trace to_datetime w xml_path save_path)
    as [(e0 & Hparse & Hp)
       |(root & _ & _ & _ & _ & [(_ & e0 & He0 & Hp)|(_ & Hp)])];
    rewrite Hp in Hrun.
  - inversion Hrun; subst. eapply parse_health_data_raises_only, Hparse.
  - inversion Hrun; subst. destruct He0 as [->| ->]; exact I.
  - destruct (existsb (String.eqb "device") (observed_keys (records_of root)));
      [destruct (writable save_path)|]; inversion Hrun; subst; exact I.
Qed.

Lemma process_health_records_raises_only_witness :
  fst (process_health_records sample_to_datetime "export.xml" "out.csv"
         (disk_with export_untyped))
  = inl ValueError_mask_na
  /\ pipeline_error ValueError_mask_na.
Proof.
  assert (Hrun :
    process_health_records sample_to_datetime "export.xml" "out.csv"
      (disk_with export_untyped)
    = (inl ValueError_mask_na,
       snd (process_health_records sample_to_datetime "export.xml" "out.csv"
              (disk_with export_untyped))))
    by (vm_compute; reflexivity).
  split; [rewrite Hrun; reflexivity|].
  exact (process_health_records_raises_only sample_to_datetime _ _ _ _ _ Hrun).
Defined.

(** X9. When the pipeline succeeds: on a well-formed document,
    [process_health_records] returns exactly when every date label is an
    attribute of some [Record] element, [pd.to_datetime] accepts every
    value under a date label as an entry of the column of that label, every
    [Record] element has a [type] attribute, some [Record] element has a
    [device] attribute, and the output at [save_path] can be opened for
    writing. *)
Theorem process_health_records_succeeds_iff `{PF : Platform}
    (to_datetime : list (option string) -> string -> option (option Timestamp))
    (w : world) (xml_path save_path : string) (root : Element) :
  files w !! xml_path = Some (XmlDoc root) ->
  (exists w', process_health_records to_datetime xml_path save_path w = (inr tt, w'))
  <-> ((forall k, In k date_cols ->
          exists d, In d (records_of root) /\ In k (List.map fst d))
       /\ (forall k d s, In k date_cols -> In d (records_of root) ->
             dict_get k d = Some s ->
             to_datetime (raw_values (records_of root) k) s <> None)
       /\ (forall d, In d (records_of root) -> In "type" (List.map fst d))
       /\ (exists d, In d (records_of root) /\ In "device" (List.map fst d))
       /\ writable save_path = true).
Proof.
  intros Hfile.
  rewrite <- date_cols_observed_spec, <- date_values_parse_spec, <- all_typed_spec,
    <- observed_keys_In, <- existsb_eqb_In.
  split.
  - intros [w' Hrun].
    destruct (process_health_records_trace to_datetime w xml_path save_path)
      as [(e0 & _ & Hp)
         |(root' & Hfile' & Hobs & Hdates & _ & [(_ & e0 & _ & Hp)|(Hall & Hp)])];
      rewrite Hp in Hrun; try discriminate.
    assert (root' = root) by congruence. subst root'.
    destruct (existsb (String.eqb "device") (observed_keys (records_of root)));
      [|discriminate].
    destruct (writable save_path); [|discriminate].
    repeat split; assumption.
  - intros (Hobs & Hdates & Hall & Hdev & Hwr).
    pose proof (parse_health_data_ok to_datetime w xml_path root Hfile Hobs Hdates)
      as Hparse.
    rewrite (process_on_typed_table to_datetime w xml_path save_path _ _ Hparse
               (parsed_frame_type_strings to_datetime _ Hobs Hall)).
    rewrite parsed_frame_has_device, Hdev, Hwr. eexists. reflexivity.
Qed.

Lemma process_health_records_succeeds_iff_witness :
  files (disk_with export_two) !! "export.xml" = Some (XmlDoc export_two)
  /\ (exists w',
        process_health_records sample_to_datetime "export.xml" "out.csv"
          (disk_with export_two) = (inr tt, w'))
  /\ writable "" = false
  /\ ~ (exists w',
          process_health_records sample_to_datetime "export.xml" ""
            (disk_with export_two) = (inr tt, w'))
  /\ ~ (exists w',
          process_health_records sample_to_datetime "export.xml" "out.csv"
            (disk_with export_mixed_dates) = (inr tt, w'))
  /\ ~ (exists w',
          process_health_records sample_to_datetime "export.xml" "out.csv"
            (disk_with export_untyped) = (inr tt, w')).
Proof.
  split; [reflexivity|]. split.
  { apply (process_health_records_succeeds_iff sample_to_datetime
             (disk_with export_two) "export.xml" "out.csv" export_two eq_refl).
    split; [apply date_cols_observed_spec; reflexivity|].
    split; [apply date_values_parse_spec; reflexivity|].
    split; [apply all_typed_spec; reflexivity|].
    split; [|reflexivity].
    exists (attrib_of step_record).
    split; [left; reflexivity | do 4 right; left; reflexivity]. }
  split; [reflexivity|]. split.
  { intros Hok.
    apply (process_health_records_succeeds_iff sample_to_datetime
             (disk_with export_two) "export.xml" "" export_two eq_refl)
      in Hok as (_ & _ & _ & _ & Hwr).
    discriminate. }
  split.
  { intros Hok.
    apply (process_health_records_succeeds_iff sample_to_datetime
             (disk_with export_mixed_dates) "export.xml" "out.csv"
             export_mixed_dates eq_refl)
      in Hok as (_ & Hdates & _).
    apply date_values_parse_spec in Hdates. discriminate. }
  intros Hok.
  apply (process_health_records_succeeds_iff sample_to_datetime
           (disk_with export_untyped) "export.xml" "out.csv" export_untyped eq_refl)
    in Hok as (_ & _ & Hall & _).
  apply all_typed_spec in Hall. discriminate.
Defined.

(** X10. What a failure of the pipeline leaves, a failure of [to_csv]
    being one to open the output (nothing is written then; an error in the
    middle of the writing, which could leave part of a file, is outside the
    model): the files are as they were (no output file appears) and the
    last log entry is the error entry of the pipeline for the exception
    raised. When the failure is that of [parse_health_data], the exception
    is logged twice, by the parse and by the pipeline, and nothing else is
    logged; when the parse went through, the entries logged before the
    error entry are info entries only. When the output cannot be opened and
    every step before went through, the exception is [OSError], logged
    after the two lines of the categories. *)
Theorem process_health_records_failure_effects `{PF : Platform}
    (to_datetime : list (option string) -> string -> option (option Timestamp))
    (w w' : world) (xml_path save_path : string) (e : exn) :
  process_health_records to_datetime xml_path save_path w = (inl e, w') ->
  files w' = files w
  /\ (exists lg, log w' = log w ++ lg ++ [Error_processing e])
  /\ (forall e0 w1, parse_health_data to_datetime xml_path w = (inl e0, w1) ->
        e0 = e /\ log w' = log w ++ [Error_parse e; Error_processing e])
  /\ (forall df w1, parse_health_data to_datetime xml_path w = (inr df, w1) ->
        exists lg, log w' = log w ++ lg ++ [Error_processing e]
                   /\ forall x, In x lg -> exists msg, x = Info msg)
  /\ (forall df w1 tys,
        parse_health_data to_datetime xml_path w = (inr df, w1) ->
        type_strings df tys ->
        has_col "device" (columns df) = true ->
        writable save_path = false ->
        e = OSError
        /\ log w'
           = log w ++ [types_line "Quantity Types:" (extracted_names (Some "Quantity") tys);
                       types_line "Category Types:" (extracted_names (Some "Category") tys);
                       Error_processing OSError]).
Proof.
  intros Hrun.
  assert (Hlast : forall df w1 tys,
            parse_health_data to_datetime xml_path w = (inr df, w1) ->
            type_strings df tys ->
            has_col "device" (columns df) = true ->
            writable save_path = false ->
            e = OSError
            /\ log w'
               = log w
                 ++ [types_line "Quantity Types:" (extracted_names (Some "Quantity") tys);
                     types_line "Category Types:" (extracted_names (Some "Category") tys);
                     Error_processing OSError]).
  { intros df w1 tys Hparse Hty Hdev Hwr.
    pose proof (parse_health_data_inv _ _ _ _ _ Hparse) as (root & _ & _ & _ & _ & ->).
    rewrite (process_on_typed_table to_datetime w xml_path save_path df tys Hparse Hty),
      Hdev, Hwr in Hrun.
    inversion Hrun; subst. split; reflexivity. }
  destruct (process_health_records_trace to_datetime w xml_path save_path)
    as [(e0 & Hparse & Hp)
       |(root & _ & _ & _ & Hparse & [(_ & e0 & _ & Hp)|(_ & Hp)])];
    rewrite Hp in Hrun.
  - inversion Hrun; subst. cbn [files log logged].
    split; [reflexivity|]. split.
    + exists [Error_parse e]. rewrite <- app_assoc. reflexivity.
    + split; [|split; [|exact Hlast]].
      * intros e1 w1 H1. rewrite Hparse in H1. inversion H1; subst.
        split; [reflexivity|]. rewrite <- app_assoc. reflexivity.
      * intros df w1 H1. rewrite Hparse in H1. discriminate.
  - inversion Hrun; subst. cbn [files log].
    split; [reflexivity|]. split; [exists []; reflexivity|].
    split; [|split; [|exact Hlast]].
    + intros e1 w1 H1. rewrite Hparse in H1. discriminate.
    + intros df w1 _. exists []. split; [reflexivity | intros x []].
  - assert (Hshape : exists df0,
              w' = pipeline_store df0 w (types_of (records_of root))
                     (Error_processing e) (files w)).
    { destruct (existsb (String.eqb "device") (observed_keys (records_of root)));
        [destruct (writable save_path)|]; inversion Hrun; subst; eexists; reflexivity. }
    destruct Hshape as [df0 Hw'].
    pose proof Hlast as Hlast'. subst w'. unfold pipeline_store. cbn [files log].
    split; [reflexivity|].
    split; [eexists [_; _]; reflexivity|].
    split; [|split; [|exact Hlast']].
    + intros e1 w1 H1. rewrite Hparse in H1. discriminate.
    + intros df w1 _. eexists [_; _]. split; [reflexivity|].
      unfold types_line. intros x [<-|[<-|[]]]; eexists; reflexivity.
Qed.

Lemma process_health_records_failure_effects_witness :
  (exists w',
     process_health_records sample_to_datetime "export.xml" "out.csv"
       (disk_with export_empty)
     = (inl (KeyError ["creationDate"; "startDate"; "endDate"]), w')
     /\ files w' = files (disk_with export_empty)
     /\ log w' = [Error_parse (KeyError ["creationDate"; "startDate"; "endDate"]);
                  Error_processing (KeyError ["creationDate"; "startDate"; "endDate"])])
  /\ writable "" = false
  /\ (exists w',
        process_health_records sample_to_datetime "export.xml" ""
          (disk_with export_two)
        = (inl OSError, w')
        /\ files w' = files (disk_with export_two)
        /\ log w'
           = [Info ("Quantity Types:" +:+ PyStr.nl +:+ "StepCount" +:+ PyStr.nl);
              Info ("Category Types:" +:+ PyStr.nl +:+ "SleepAnalysis" +:+ PyStr.nl);
              Error_processing OSError]).
Proof.
  split.
  { eexists.
    assert (Hrun :
      process_health_records sample_to_datetime "export.xml" "out.csv"
        (disk_with export_empty)
      = (inl (KeyError ["creationDate"; "startDate"; "endDate"]),
         snd (process_health_records sample_to_datetime "export.xml" "out.csv"
                (disk_with export_empty))))
      by (vm_compute; reflexivity).
    split; [exact Hrun|].
    destruct (process_health_records_failure_effects sample_to_datetime _ _ _ _ _ Hrun)
      as (Hfiles & _ & Hparse & _).
    split; [exact Hfiles|].
    eapply Hparse. vm_compute. reflexivity. }
  split; [reflexivity|].
  eexists.
  assert (Hrun :
    process_health_records sample_to_datetime "export.xml" ""
      (disk_with export_two)
    = (inl OSError,
       snd (process_health_records sample_to_datetime "export.xml" ""
              (disk_with export_two))))
    by (vm_compute; reflexivity).
  split; [exact Hrun|].
  destruct (process_health_records_failure_effects sample_to_datetime _ _ _ _ _ Hrun)
    as (Hfiles & _ & _ & _ & Hopen).
  split; [exact Hfiles|].
  destruct (Hopen (parsed_frame sample_to_datetime (records_of export_two))
                  (disk_with export_two)
                  ["HKQuantityTypeIdentifierStepCount";
                   "HKCategoryTypeIdentifierSleepAnalysis"])
    as [_ Hlog].
  - apply parse_health_data_ok; reflexivity.
  - split; reflexivity.
  - reflexivity.
  - reflexivity.
  - rewrite Hlog. reflexivity.
Defined.

(** The store a successful pipeline leaves. *)
Lemma process_health_records_success_store `{PF : Platform}
    (to_datetime : list (option string) -> string -> option (option Timestamp))
    (w w' : world) (xml_path save_path : string) (root : Element) :
  files w !! xml_path = Some (XmlDoc root) ->
  process_health_records to_datetime xml_path save_path w = (inr tt, w') ->
  date_cols_observed (records_of root) = true
  /\ all_typed (records_of root) = true
  /\ w' = pipeline_store
            (without_column "device"
               (cleaned_frame (Some "Quantity")
                  (parsed_frame to_datetime (records_of root))
                  (types_of (records_of root))))
            w (types_of (records_of root))
            (Info "Data processing completed successfully")
            (<[save_path :=
                 CsvFile
                   (csv_of
                      (without_column "device"
                         (cleaned_frame (Some "Quantity")
                            (parsed_frame to_datetime (records_of root))
                            (types_of (records_of root)))))]>
               (files w)).
Proof.
  intros Hfile Hrun.
  destruct (process_health_records_trace to_datetime w xml_path save_path)
    as [(e0 & _ & Hp)
       |(root' & Hfile' & Hobs & _ & _ & [(_ & e0 & _ & Hp)|(Hall & Hp)])];
    rewrite Hp in Hrun; try discriminate.
  assert (root' = root) by congruence. subst root'.
  destruct (existsb (String.eqb "device") (observed_keys (records_of root)));
    [|discriminate].
  destruct (writable save_path); [|discriminate].
  inversion Hrun. repeat split; assumption.
Qed.

(** X11. What a success of the pipeline leaves besides the output file: the
    log gains exactly three info entries, in this order: the Quantity names
    and the Category names of the records, as [extract_record_types] gives
    them, one per line under their title, and the completion message; and
    no file other than the one at [save_path] is created or changed. *)
Theorem process_health_records_success_effects `{PF : Platform}
    (to_datetime : list (option string) -> string -> option (option Timestamp))
    (w w' : world) (xml_path save_path : string) (root : Element) :
  files w !! xml_path = Some (XmlDoc root) ->
  process_health_records to_datetime xml_path save_path w = (inr tt, w') ->
  log w'
  = log w
    ++ [Info ("Quantity Types:" +:+ PyStr.nl
              +:+ PyStr.join PyStr.nl
                    (extracted_names (Some "Quantity") (types_of (records_of root)))
              +:+ PyStr.nl);
        Info ("Category Types:" +:+ PyStr.nl
              +:+ PyStr.join PyStr.nl
                    (extracted_names (Some "Category") (types_of (records_of root)))
              +:+ PyStr.nl);
        Info "Data processing completed successfully"]
  /\ (forall p, p <> save_path -> files w' !! p = files w !! p)
  /\ (exists c, files w' !! save_path = Some (CsvFile c)).
Proof.
  intros Hfile Hrun.
  destruct (process_health_records_success_store to_datetime w w' xml_path save_path
              root Hfile Hrun) as (_ & _ & ->).
  unfold pipeline_store. cbn [log files].
  split; [reflexivity|]. split.
  - intros p Hp. apply lookup_insert_ne. congruence.
  - eexists. apply lookup_insert_eq.
Qed.

Lemma process_health_records_success_effects_witness :
  exists w',
    process_health_records sample_to_datetime "export.xml" "out.csv"
      (disk_with export_two)
    = (inr tt, w')
    /\ log w'
       = [Info ("Quantity Types:" +:+ PyStr.nl +:+ "StepCount" +:+ PyStr.nl);
          Info ("Category Types:" +:+ PyStr.nl +:+ "SleepAnalysis" +:+ PyStr.nl);
          Info "Data processing completed successfully"]
    /\ files w' !! "export.xml" = Some (XmlDoc export_two).
Proof.
  eexists.
  assert (Hrun :
    process_health_records sample_to_datetime "export.xml" "out.csv"
      (disk_with export_two)
    = (inr tt,
       snd (process_health_records sample_to_datetime "export.xml" "out.csv"
              (disk_with export_two))))
    by (vm_compute; reflexivity).
  split; [exact Hrun|].
  destruct (process_health_records_success_effects sample_to_datetime
              (disk_with export_two) _ "export.xml" "out.csv"
              export_two eq_refl Hrun) as (Hlog & Hother & _).
  split; [rewrite Hlog; reflexivity|].
  rewrite Hother by discriminate. reflexivity.
Defined.

(** X12. The [type] field of the output file: when the pipeline succeeds,
    every [Record] element has a [type] attribute, and on the line of the
    [i]-th element the field under [type] is that attribute with every
    occurrence of [HKQuantityTypeIdentifier] removed when the attribute
    contains this literal, and is empty (NaN) when it does not, which is the
    case of the records of the Category kind. *)
Theorem process_health_records_output_type `{PF : Platform}
    (to_datetime : list (option string) -> string -> option (option Timestamp))
    (w w' : world) (xml_path save_path : string) (root : Element) :
  files w !! xml_path = Some (XmlDoc root) ->
  process_health_records to_datetime xml_path save_path w = (inr tt, w') ->
  exists c,
    files w' !! save_path = Some (CsvFile c)
    /\ forall i e, nth_error (iter "Record" root) i = Some e ->
         exists ty,
           dict_get "type" (attrib_of e) = Some ty
           /\ (PyStr.contains "HKQuantityTypeIdentifier" ty = true ->
               csv_cell c i "type"
               = Some (Str (PyStr.replace "HKQuantityTypeIdentifier" "" ty)))
           /\ (PyStr.contains "HKQuantityTypeIdentifier" ty = false ->
               csv_cell c i "type" = Some NaN).
Proof.
  intros Hfile Hrun.
  destruct (process_health_records_success_store to_datetime w w' xml_path save_path
              root Hfile Hrun) as (Hobs & Hall & ->).
  set (rl := records_of root) in *.
  set (pf := parsed_frame to_datetime rl).
  eexists. unfold pipeline_store. cbn [files].
  split; [apply lookup_insert_eq|].
  intros i e Hi.
  assert (Hd : nth_error rl i = Some (attrib_of e))
    by (unfold rl, records_of; apply map_nth_error, Hi).
  assert (Hin : In (attrib_of e) rl) by (eapply nth_error_In, Hd).
  destruct (dict_get "type" (attrib_of e)) as [ty|] eqn:Hty.
  2:{ exfalso. rewrite all_typed_spec in Hall. apply Hall, dict_get_In in Hin.
      congruence. }
  exists ty. split; [reflexivity|].
  assert (Hty' : nth_error (types_of rl) i = Some ty).
  { unfold types_of.
    rewrite (map_nth_error
               (fun d => match dict_get "type" d with Some s => s | None => EmptyString end)
               _ _ Hd).
    rewrite Hty. reflexivity. }
  assert (Hlen : length (types_of rl) = nrows pf)
    by (unfold types_of; rewrite length_map; reflexivity).
  assert (Hwf : wf_frame (cleaned_frame (Some "Quantity") pf (types_of rl))).
  { apply set_col_wf; [apply parsed_frame_wf|].
    cbn [col_length]. rewrite length_map. exact Hlen. }
  assert (Hlt : i < nrows (without_column "device"
                             (cleaned_frame (Some "Quantity") pf (types_of rl)))).
  { cbn [without_column cleaned_frame nrows]. rewrite <- Hlen.
    apply nth_error_Some. rewrite Hty'. discriminate. }
  rewrite (csv_of_cell _ i "type" (without_column_wf _ "device" Hwf) Hlt).
  assert (Hcell : cell_at (without_column "device"
                             (cleaned_frame (Some "Quantity") pf (types_of rl))) i "type"
                  = Some (str_cell (cleaned_value "HKQuantityTypeIdentifier" ty))).
  { unfold cell_at at 1. unfold without_column. cbn [columns].
    rewrite lookup_filter_ne by discriminate.
    apply (cleaned_frame_cell (Some "Quantity") pf (types_of rl) i ty Hty'). }
  rewrite Hcell. unfold cleaned_value. split; intros ->; reflexivity.
Qed.

Lemma process_health_records_output_type_witness :
  exists w' c,
    process_health_records sample_to_datetime "export.xml" "out.csv"
      (disk_with export_two)
    = (inr tt, w')
    /\ files w' !! "out.csv" = Some (CsvFile c)
    /\ csv_cell c 0 "type" = Some (Str "StepCount")
    /\ csv_cell c 1 "type" = Some NaN.
Proof.
  assert (Hrun :
    process_health_records sample_to_datetime "export.xml" "out.csv"
      (disk_with export_two)
    = (inr tt,
       snd (process_health_records sample_to_datetime "export.xml" "out.csv"
              (disk_with export_two))))
    by (vm_compute; reflexivity).
  destruct (process_health_records_output_type sample_to_datetime
              (disk_with export_two) _ "export.xml" "out.csv"
              export_two eq_refl Hrun) as (c & Hfile & Hrows).
  eexists. exists c. split; [exact Hrun|]. split; [exact Hfile|]. split.
  - destruct (Hrows 0 step_record eq_refl) as (ty & Hty & Hq & _).
    cbn in Hty. inversion Hty; subst ty. apply Hq. reflexivity.
  - destruct (Hrows 1 sleep_record eq_refl) as (ty & Hty & _ & Hn).
    cbn in Hty. inversion Hty; subst ty. apply Hn. reflexivity.
Defined.

(** * Further properties of the table *)

Lemma filter_complement_length {A} (f g : A -> bool) (l : list A) :
  (forall x, In x l -> g x = negb (f x)) ->
  length (List.filter f l) + length (List.filter g l) = length l.
Proof.
  induction l as [|a l IH]; intros H; [reflexivity|].
  cbn [List.filter]. rewrite (H a (or_introl eq_refl)).
  assert (IH' := IH (fun x Hx => H x (or_intror Hx))).
  destruct (f a); cbn [negb length]; lia.
Qed.

(** X13. The two categories split the rows: on a table whose [type] column
    holds a string in every row, each containing exactly one of the
    literals [HKQuantityTypeIdentifier] and [HKCategoryTypeIdentifier], the
    filter returns for the two categories two selections that have no row
    in common and together hold every row of the table. *)
Theorem categories_split_the_rows `{PF : Platform} (w : world) (tys : list string) :
  type_strings (frame w) tys ->
  (forall v, In v tys ->
     PyStr.contains "HKCategoryTypeIdentifier" v
     = negb (PyStr.contains "HKQuantityTypeIdentifier" v)) ->
  exists q c,
    get_filtered_record_types (Some "Quantity") w = (inr q, w)
    /\ get_filtered_record_types (Some "Category") w = (inr c, w)
    /\ (forall i, i < nrows (frame w) ->
          (In i (s_index q) <-> ~ In i (s_index c)))
    /\ length (s_index q) + length (s_index c) = nrows (frame w).
Proof.
  intros Hty Hxor. do 2 eexists.
  split; [apply (get_filtered_record_types_run (Some "Quantity") w tys eq_refl Hty)|].
  split; [apply (get_filtered_record_types_run (Some "Category") w tys eq_refl Hty)|].
  cbn [s_index]. rewrite identifier_Quantity, identifier_Category.
  destruct Hty as [_ Hlen]. rewrite <- Hlen.
  assert (Hrow : forall i, In i (seq 0 (length tys)) ->
            PyStr.contains "HKCategoryTypeIdentifier" (nth i tys EmptyString)
            = negb (PyStr.contains "HKQuantityTypeIdentifier" (nth i tys EmptyString))).
  { intros i Hi. apply in_seq in Hi. apply Hxor, nth_In. lia. }
  split.
  - intros i Hi. rewrite !filter_In.
    assert (Hin : In i (seq 0 (length tys))) by (apply in_seq; lia).
    rewrite (Hrow i Hin).
    destruct (PyStr.contains "HKQuantityTypeIdentifier" (nth i tys EmptyString));
      cbn [negb]; split.
    + intros _ [_ H]. discriminate.
    + intros _. split; [exact Hin | reflexivity].
    + intros [_ H]. discriminate.
    + intros H. exfalso. apply H. split; [exact Hin | reflexivity].
  - rewrite (filter_complement_length _ _ _ Hrow). apply length_seq.
Qed.

Lemma categories_split_the_rows_witness :
  type_strings (frame (store_of steps_and_sleep))
    ["HKQuantityTypeIdentifierStepCount"; "HKCategoryTypeIdentifierSleepAnalysis"]
  /\ exists q c,
       get_filtered_record_types (Some "Quantity") (store_of steps_and_sleep)
       = (inr q, store_of steps_and_sleep)
       /\ get_filtered_record_types (Some "Category") (store_of steps_and_sleep)
          = (inr c, store_of steps_and_sleep)
       /\ length (s_index q) + length (s_index c) = 2.
Proof.
  split; [split; reflexivity|].
  destruct (categories_split_the_rows (store_of steps_and_sleep)
              ["HKQuantityTypeIdentifierStepCount";
               "HKCategoryTypeIdentifierSleepAnalysis"] (conj eq_refl eq_refl))
    as (q & c & Hq & Hc & _ & Hlen).
  - intros v [<-|[<-|[]]]; reflexivity.
  - exists q, c. split; [exact Hq|]. split; [exact Hc | exact Hlen].
Defined.

(** X14. The table stays well formed: when every column of the table has
    one entry per row, this is still so after [clean_record_types],
    whatever its outcome (the shorter series it assigns is aligned on all
    the rows), and after the drop of a column. *)
Theorem table_stays_well_formed `{PF : Platform}
    (c : option string) (name : string) (w : world) :
  wf_frame (frame w) ->
  wf_frame (frame (snd (clean_record_types c w)))
  /\ wf_frame (frame (snd (drop_column name w))).
Proof.
  intros Hwf. split.
  - destruct (clean_record_types_frame c w) as (_ & _ & _ & _ & H). exact (H Hwf).
  - destruct (has_col name (columns (frame w))) eqn:E.
    + rewrite (drop_column_present name w E). cbn [snd frame].
      apply without_column_wf, Hwf.
    + rewrite (drop_column_absent name w E). exact Hwf.
Qed.

Lemma table_stays_well_formed_witness :
  wf_frame (frame (store_of steps_and_sleep))
  /\ wf_frame (frame (snd (clean_record_types (Some "Quantity")
                             (store_of steps_and_sleep)))).
Proof.
  assert (Hwf : wf_frame (frame (store_of steps_and_sleep))).
  { unfold wf_frame. cbn. repeat constructor. }
  split; [exact Hwf|].
  apply (table_stays_well_formed (Some "Quantity") "device"
           (store_of steps_and_sleep) Hwf).
Defined.
